(** * Domain setup validator: a shallow embedding of [app.py]

    The validator runs three checkers on a domain (DNS records, HTTPS
    reachability, TLS certificate) and combines their verdicts.  A
    Python string is modelled as the [string] of the bytes of its UTF-8
    encoding (the characters the program itself looks for, the dot and
    the star, are single bytes, and equality, prefixes, suffixes and
    concatenation of strings are those of their encodings); Python
    integers are [Z], the result dictionaries are records, and the
    mutation of a result dictionary inside a [try] block is a small
    state-and-exception monad. *)

From Stdlib Require Import Bool List String Ascii ZArith Lia.
From Stdlib Require Import DecimalString.
Import ListNotations.

Local Open Scope list_scope.
Local Open Scope string_scope.

(** ** Python string operations used by the program *)

Module PyStr.

(** [s.startswith(p)] *)
Fixpoint startswith (s p : string) : bool :=
  match p with
  | EmptyString => true
  | String c p' =>
      match s with
      | EmptyString => false
      | String d s' => Ascii.eqb d c && startswith s' p'
      end
  end.

(** [s[1:]], for a string that begins with a one-byte character (the
    program takes it of a string that begins with a star). *)
Definition slice_from_1 (s : string) : string :=
  match s with
  | EmptyString => EmptyString
  | String _ s' => s'
  end.

(** [s] without its first [n] bytes. *)
Fixpoint drop (n : nat) (s : string) : string :=
  match n, s with
  | O, _ => s
  | S _, EmptyString => EmptyString
  | S n', String _ s' => drop n' s'
  end.

(** [s.endswith(suf)]: the last [len(suf)] characters of [s] are [suf]. *)
Definition endswith (s suf : string) : bool :=
  (String.length suf <=? String.length s)%nat
  && String.eqb (drop (String.length s - String.length suf) s) suf.

(** [s.count(c)] for a one-character needle [c]. *)
Fixpoint count (s : string) (c : ascii) : nat :=
  match s with
  | EmptyString => O
  | String d s' => if Ascii.eqb d c then S (count s' c) else count s' c
  end.

(** [s.rstrip(c)] for a one-character set [c]: every trailing [c] goes. *)
Fixpoint rstrip (s : string) (c : ascii) : string :=
  match s with
  | EmptyString => EmptyString
  | String d s' =>
      match rstrip s' c with
      | EmptyString => if Ascii.eqb d c then EmptyString else String d EmptyString
      | r => String d r
      end
  end.

(** [s.split(c)]: the pieces between the occurrences of [c]. *)
Fixpoint split (s : string) (c : ascii) : list string :=
  match s with
  | EmptyString => [EmptyString]
  | String d s' =>
      if Ascii.eqb d c then EmptyString :: split s' c
      else match split s' c with
           | [] => [String d EmptyString]
           | p :: ps => String d p :: ps
           end
  end.

(** The string of the bytes [l]. *)
Definition bytes (l : list nat) : string :=
  fold_right (fun n s => String (ascii_of_nat n) s) EmptyString l.

(** The characters [c] with [c.isspace()], in UTF-8: U+0009 to U+000D,
    U+001C to U+0020, U+0085, U+00A0, U+1680, U+2000 to U+200A, U+2028,
    U+2029, U+202F, U+205F and U+3000. *)
Definition white_space : list string :=
  (map (fun n => bytes [n]) (seq 9 5)
   ++ map (fun n => bytes [n]) (seq 28 5)
   ++ [bytes [194; 133]; bytes [194; 160]; bytes [225; 154; 128]]
   ++ map (fun n => bytes [226; 128; n]) (seq 128 11)
   ++ [bytes [226; 128; 168]; bytes [226; 128; 169]; bytes [226; 128; 175];
       bytes [226; 129; 159]; bytes [227; 128; 128]])%list.

(** [s] without the first of the strings [ws] that it starts with. *)
Fixpoint strip_one (ws : list string) (s : string) : option string :=
  match ws with
  | [] => None
  | w :: ws' =>
      if startswith s w then Some (drop (String.length w) s)
      else strip_one ws' s
  end.

(** At most [fuel] leading white-space characters removed. *)
Fixpoint lstrip_fuel (fuel : nat) (s : string) : string :=
  match fuel with
  | O => s
  | S fuel' =>
      match strip_one white_space s with
      | Some rest => lstrip_fuel fuel' rest
      | None => s
      end
  end.

(** [s.lstrip()]: a string has no more characters than bytes. *)
Definition lstrip_ws (s : string) : string := lstrip_fuel (String.length s) s.

(** [s.rstrip()]: the bytes of [s] up to its trailing run of white-space
    characters. *)
Fixpoint rstrip_ws (s : string) : string :=
  match s with
  | EmptyString => EmptyString
  | String d s' =>
      match lstrip_ws s with
      | EmptyString => EmptyString
      | _ => String d (rstrip_ws s')
      end
  end.

(** [s.strip()] *)
Definition strip (s : string) : string := rstrip_ws (lstrip_ws s).

(** Truth value of a string: [bool(s)]. *)
Definition truthy (s : string) : bool :=
  match s with EmptyString => false | _ => true end.

(** [str(n)] for an integer [n]. *)
Definition of_int (n : Z) : string := NilZero.string_of_int (Z.to_int n).

End PyStr.

(** ** The hostname coverage rule (local function [covers] of [cert_check]) *)

Definition dot : ascii := "."%char.

Definition covers (d san : string) : bool :=
  if String.eqb san d then true
  else if PyStr.startswith san "*." then
    let suf := PyStr.slice_from_1 san in
    PyStr.endswith d suf && (PyStr.count suf dot <? PyStr.count d dot)%nat
  else false.

(** The wildcard condition in the words of the rule: the SAN starts with
    the two characters star-dot, the domain ends with the SAN less its
    star, and the domain has strictly more dot-separated labels than that
    suffix. *)
Definition wildcard_rule (d san : string) : Prop :=
  PyStr.startswith san "*." = true
  /\ (exists p, d = (p ++ PyStr.slice_from_1 san)%string)
  /\ (List.length (PyStr.split (PyStr.slice_from_1 san) dot)
      < List.length (PyStr.split d dot))%nat.

(** ** Exceptions and outcomes of calls *)

(** The one class distinction the program makes: [https_check] catches
    [requests.RequestException] only, the other two checkers catch every
    [Exception].  The string is [str(e)]. *)
Inductive exn : Type :=
| RequestException (msg : string)
| OtherException (msg : string).

Definition exn_str (e : exn) : string :=
  match e with
  | RequestException m => m
  | OtherException m => m
  end.

Inductive outcome (A : Type) : Type :=
| Returns (a : A)
| Raises (e : exn).
Arguments Returns {A} a.
Arguments Raises {A} e.

(** ** A state-and-exception monad for code that mutates [result]

    A computation takes the current [result] dictionary and ends either
    normally or with an exception; in both cases the mutations made so far
    stay, as they do for a Python dictionary mutated inside [try]. *)

Definition M (S A : Type) : Type := S -> outcome A * S.

Section Exec.
Context {S : Type}.

Definition ret {A} (a : A) : M S A := fun s => (Returns a, s).

Definition bind {A B} (m : M S A) (k : A -> M S B) : M S B :=
  fun s =>
    match m s with
    | (Returns a, s') => k a s'
    | (Raises e, s') => (Raises e, s')
    end.

(** A call into a library: its outcome, the state untouched. *)
Definition call {A} (o : outcome A) : M S A := fun s => (o, s).

Definition get : M S S := fun s => (Returns s, s).

Definition modify (f : S -> S) : M S unit := fun s => (Returns tt, f s).

(** [try: body except Exception as e: handler e] *)
Definition try_except {A} (body : M S A) (handler : exn -> M S A) : M S A :=
  fun s =>
    match body s with
    | (Returns a, s') => (Returns a, s')
    | (Raises e, s') => handler e s'
    end.

(** [try: body except requests.RequestException as e: handler e] *)
Definition try_except_request {A} (body : M S A) (handler : exn -> M S A)
  : M S A :=
  fun s =>
    match body s with
    | (Raises (RequestException m), s') => handler (RequestException m) s'
    | r => r
    end.

(** [if b: m] *)
Definition when (b : bool) (m : M S unit) : M S unit :=
  if b then m else ret tt.

(** The function body [m] followed by [return result], started on the
    freshly built dictionary [init]. *)
Definition run_checker (init : S) (m : M S unit) : outcome S :=
  match m init with
  | (Returns _, s) => Returns s
  | (Raises e, _) => Raises e
  end.

End Exec.

Notation "x <- m ;; k" := (bind m (fun x => k))
  (at level 61, m at next level, right associativity).
Notation "m ;; k" := (bind m (fun _ => k))
  (at level 61, right associativity).

(** [l.append(x)] *)
Definition append {A} (l : list A) (x : A) : list A := (l ++ [x])%list.

(** Truth value of a list: [bool(l)]. *)
Definition nonempty {A} (l : list A) : bool :=
  match l with [] => false | _ => true end.

(** Truth value of an optional string: [None] and the empty string are
    false. *)
Definition truthy_opt (o : option string) : bool :=
  match o with None => false | Some s => PyStr.truthy s end.

(** [o or ""] *)
Definition or_empty (o : option string) : string :=
  if truthy_opt o then match o with Some s => s | None => "" end else "".

(** [x in l] for a list of strings. *)
Definition contains (l : list string) (x : string) : bool :=
  existsb (String.eqb x) l.

(** ** The world outside: DNS, HTTP, TLS, the clock *)

(** What [ssock.getpeercert()] returns, restricted to the keys read:
    a key that is absent from the dictionary is [None]. *)
Record Cert : Type := {
  notAfter : option string;
  subjectAltName : option (list (string * string));
  subject : option (list (list (string * string)))
}.

(** A [datetime] is its number of microseconds on the naive time line. *)
Record Env : Type := {
  (** [dns.resolver.resolve(domain, rdtype)]: the [to_text()] of each
      answer (of its [target] for CNAME), or the exception raised. *)
  resolve : string -> string -> outcome (list string);
  (** [requests.head(url, timeout=10, allow_redirects=True).status_code] *)
  requests_head : string -> outcome Z;
  (** the TLS connection to port 443 and [getpeercert()] *)
  getpeercert : string -> outcome Cert;
  (** [datetime.datetime.strptime(s, fmt)] *)
  strptime : string -> string -> outcome Z;
  (** [datetime.datetime.utcnow()] *)
  utcnow : Z
}.

(** [answers[0]] *)
Definition first_answer (answers : list string) : outcome string :=
  match answers with
  | [] => Raises (OtherException "list index out of range")
  | t :: _ => Returns t
  end.

(** ** [dns_checks] *)

Record DnsResult : Type := {
  dns_ok : bool;
  dns_a_records : list string;
  dns_cname : option string;
  dns_errors : list string;
  dns_notes : list string
}.

Definition dns_init : DnsResult :=
  {| dns_ok := true; dns_a_records := []; dns_cname := None;
     dns_errors := []; dns_notes := [] |}.

Definition dns_set_ok (b : bool) (r : DnsResult) : DnsResult :=
  {| dns_ok := b; dns_a_records := dns_a_records r;
     dns_cname := dns_cname r; dns_errors := dns_errors r;
     dns_notes := dns_notes r |}.

Definition dns_set_a_records (l : list string) (r : DnsResult) : DnsResult :=
  {| dns_ok := dns_ok r; dns_a_records := l;
     dns_cname := dns_cname r; dns_errors := dns_errors r;
     dns_notes := dns_notes r |}.

Definition dns_set_cname (c : option string) (r : DnsResult) : DnsResult :=
  {| dns_ok := dns_ok r; dns_a_records := dns_a_records r;
     dns_cname := c; dns_errors := dns_errors r;
     dns_notes := dns_notes r |}.

Definition dns_add_error (e : string) (r : DnsResult) : DnsResult :=
  {| dns_ok := dns_ok r; dns_a_records := dns_a_records r;
     dns_cname := dns_cname r; dns_errors := append (dns_errors r) e;
     dns_notes := dns_notes r |}.

Definition dns_add_note (n : string) (r : DnsResult) : DnsResult :=
  {| dns_ok := dns_ok r; dns_a_records := dns_a_records r;
     dns_cname := dns_cname r; dns_errors := dns_errors r;
     dns_notes := append (dns_notes r) n |}.

Definition msg_no_records (domain : string) : string :=
  "No A or CNAME records found for " ++ domain.

Definition msg_ip_present (expected_ip : string) : string :=
  "Expected IP " ++ expected_ip ++ " present in A records.".

Definition msg_ip_missing (expected_ip : string) : string :=
  "Expected IP " ++ expected_ip ++ " NOT found in A records.".

Definition msg_cname_match (expected_cname : string) : string :=
  "CNAME matches expected (" ++ expected_cname ++ ").".

Definition msg_cname_mismatch (found : string) : string :=
  "CNAME does not match expected. Found: '" ++ found ++ "'".

Definition msg_dns_failed (e : exn) : string :=
  "DNS check failed: " ++ exn_str e.

Section DnsChecks.
Variable env : Env.
Variables domain expected_ip expected_cname : string.

(** Lines 12-16: the A records. *)
Definition dns_resolve_a : M DnsResult unit :=
  try_except
    (answers <- call (resolve env domain "A") ;;
     modify (dns_set_a_records answers))
    (fun _ => modify (dns_set_a_records [])).

(** Lines 19-24: the CNAME, the first answer with its trailing dots
    stripped. *)
Definition dns_resolve_cname : M DnsResult unit :=
  try_except
    (answers <- call (resolve env domain "CNAME") ;;
     target <- call (first_answer answers) ;;
     modify (dns_set_cname (Some (PyStr.rstrip target dot))))
    (fun _ => modify (dns_set_cname None)).

(** Lines 26-28. *)
Definition dns_no_records : M DnsResult unit :=
  result <- get ;;
  when (negb (nonempty (dns_a_records result))
        && negb (truthy_opt (dns_cname result)))
    (modify (dns_add_error (msg_no_records domain)) ;;
     modify (dns_set_ok false)).

(** Lines 31-36. *)
Definition dns_expected_ip : M DnsResult unit :=
  when (PyStr.truthy expected_ip)
    (result <- get ;;
     if contains (dns_a_records result) expected_ip
     then modify (dns_add_note (msg_ip_present expected_ip))
     else (modify (dns_add_error (msg_ip_missing expected_ip)) ;;
           modify (dns_set_ok false))).

(** Lines 39-47. *)
Definition dns_expected_cname : M DnsResult unit :=
  when (PyStr.truthy expected_cname)
    (result <- get ;;
     let norm_cname := PyStr.rstrip (or_empty (dns_cname result)) dot in
     let norm_expected := PyStr.rstrip expected_cname dot in
     if String.eqb norm_cname norm_expected
     then modify (dns_add_note (msg_cname_match expected_cname))
     else
       let found :=
         match dns_cname result with
         | Some c => if PyStr.truthy c then c else "none"
         | None => "none"
         end in
       modify (dns_add_error (msg_cname_mismatch found)) ;;
       modify (dns_set_ok false)).

(** Lines 49-51: the handler of the outer [try]. *)
Definition dns_handler (e : exn) : M DnsResult unit :=
  modify (dns_add_error (msg_dns_failed e)) ;;
  modify (dns_set_ok false).

Definition dns_body : M DnsResult unit :=
  dns_resolve_a ;;
  dns_resolve_cname ;;
  dns_no_records ;;
  dns_expected_ip ;;
  dns_expected_cname.

Definition dns_checks : outcome DnsResult :=
  run_checker dns_init (try_except dns_body dns_handler).

End DnsChecks.

(** ** [https_check] *)

Record HttpsResult : Type := {
  https_ok : bool;
  https_status : option Z;
  https_errors : list string
}.

Definition https_init : HttpsResult :=
  {| https_ok := true; https_status := None; https_errors := [] |}.

Definition https_set_ok (b : bool) (r : HttpsResult) : HttpsResult :=
  {| https_ok := b; https_status := https_status r;
     https_errors := https_errors r |}.

Definition https_set_status (st : option Z) (r : HttpsResult) : HttpsResult :=
  {| https_ok := https_ok r; https_status := st;
     https_errors := https_errors r |}.

Definition https_add_error (e : string) (r : HttpsResult) : HttpsResult :=
  {| https_ok := https_ok r; https_status := https_status r;
     https_errors := append (https_errors r) e |}.

Definition msg_http_status (status_code : Z) : string :=
  "HTTPS endpoint returned HTTP " ++ PyStr.of_int status_code.

Definition msg_connect_failed (e : exn) : string :=
  "curl/requests failed to connect: " ++ exn_str e.

Definition https_url (domain : string) : string := "https://" ++ domain.

Definition https_body (env : Env) (domain : string) : M HttpsResult unit :=
  status_code <- call (requests_head env (https_url domain)) ;;
  modify (https_set_status (Some status_code)) ;;
  when (400 <=? status_code)%Z
    (modify (https_set_ok false) ;;
     modify (https_add_error (msg_http_status status_code))).

Definition https_handler (e : exn) : M HttpsResult unit :=
  modify (https_set_ok false) ;;
  modify (https_add_error (msg_connect_failed e)).

Definition https_check (env : Env) (domain : string) : outcome HttpsResult :=
  run_checker https_init
    (try_except_request (https_body env domain) https_handler).

(** ** [cert_check] *)

Record CertResult : Type := {
  cert_ok : bool;
  cert_not_after : option string;
  cert_days_left : option Z;
  cert_sans : list string;
  cert_covers_domain : bool;
  cert_errors : list string;
  cert_warnings : list string
}.

Definition cert_init : CertResult :=
  {| cert_ok := true; cert_not_after := None; cert_days_left := None;
     cert_sans := []; cert_covers_domain := false; cert_errors := [];
     cert_warnings := [] |}.

Definition cert_set_ok (b : bool) (r : CertResult) : CertResult :=
  {| cert_ok := b; cert_not_after := cert_not_after r;
     cert_days_left := cert_days_left r; cert_sans := cert_sans r;
     cert_covers_domain := cert_covers_domain r;
     cert_errors := cert_errors r; cert_warnings := cert_warnings r |}.

Definition cert_set_not_after (s : option string) (r : CertResult)
  : CertResult :=
  {| cert_ok := cert_ok r; cert_not_after := s;
     cert_days_left := cert_days_left r; cert_sans := cert_sans r;
     cert_covers_domain := cert_covers_domain r;
     cert_errors := cert_errors r; cert_warnings := cert_warnings r |}.

Definition cert_set_days_left (d : option Z) (r : CertResult) : CertResult :=
  {| cert_ok := cert_ok r; cert_not_after := cert_not_after r;
     cert_days_left := d; cert_sans := cert_sans r;
     cert_covers_domain := cert_covers_domain r;
     cert_errors := cert_errors r; cert_warnings := cert_warnings r |}.

Definition cert_set_sans (l : list string) (r : CertResult) : CertResult :=
  {| cert_ok := cert_ok r; cert_not_after := cert_not_after r;
     cert_days_left := cert_days_left r; cert_sans := l;
     cert_covers_domain := cert_covers_domain r;
     cert_errors := cert_errors r; cert_warnings := cert_warnings r |}.

Definition cert_set_covers_domain (b : bool) (r : CertResult) : CertResult :=
  {| cert_ok := cert_ok r; cert_not_after := cert_not_after r;
     cert_days_left := cert_days_left r; cert_sans := cert_sans r;
     cert_covers_domain := b;
     cert_errors := cert_errors r; cert_warnings := cert_warnings r |}.

Definition cert_add_error (e : string) (r : CertResult) : CertResult :=
  {| cert_ok := cert_ok r; cert_not_after := cert_not_after r;
     cert_days_left := cert_days_left r; cert_sans := cert_sans r;
     cert_covers_domain := cert_covers_domain r;
     cert_errors := append (cert_errors r) e;
     cert_warnings := cert_warnings r |}.

Definition msg_expired : string := "Certificate has expired.".

Definition msg_no_end_date : string := "No certificate end date present.".

Definition msg_not_covered (domain : string) : string :=
  "Certificate does NOT cover domain " ++ domain ++ ".".

Definition msg_ssl_failed (e : exn) : string :=
  "openssl/SSL failed: " ++ exn_str e.

Definition not_after_format : string := "%b %d %H:%M:%S %Y %Z".

Definition us_per_day : Z := 86400000000.

(** [delta.days] of a [timedelta] of [delta_us] microseconds: a
    [timedelta] is normalised with a seconds part in [0, 86400), so its
    days part rounds towards minus infinity, as [Z.div] does. *)
Definition timedelta_days (delta_us : Z) : Z := delta_us / us_per_day.

(** Line 102: [[v for (k, v) in cert["subjectAltName"] if k == "DNS"]] *)
Definition dns_names (san : list (string * string)) : list string :=
  map snd (filter (fun kv => String.eqb (fst kv) "DNS") san).

(** Lines 106-109: the inner loop runs to the first [commonName] of one
    relative distinguished name and breaks. *)
Fixpoint first_common_name (tup : list (string * string)) : option string :=
  match tup with
  | [] => None
  | (k, v) :: rest =>
      if String.eqb k "commonName" then Some v else first_common_name rest
  end.

(** Lines 105-109: the outer loop is not left by the inner [break], so a
    later relative distinguished name with a [commonName] overwrites. *)
Definition common_name_fallback (subj : list (list (string * string)))
  (sans : list string) : list string :=
  fold_left
    (fun sans tup =>
       match first_common_name tup with
       | Some v => [v]
       | None => sans
       end)
    subj sans.

(** Lines 100-109: the local variable [sans]. *)
Definition cert_names (cert : Cert) : list string :=
  let sans :=
    match subjectAltName cert with
    | Some san => dns_names san
    | None => []
    end in
  if negb (nonempty sans) then
    match subject cert with
    | Some subj => common_name_fallback subj sans
    | None => sans
    end
  else sans.

Section CertCheck.
Variable env : Env.
Variable domain : string.

(** Lines 85-97. *)
Definition cert_expiry (cert : Cert) : M CertResult unit :=
  match notAfter cert with
  | Some not_after_str =>
      modify (cert_set_not_after (Some not_after_str)) ;;
      dt <- call (strptime env not_after_str not_after_format) ;;
      let days_left := timedelta_days (dt - utcnow env) in
      modify (cert_set_days_left (Some days_left)) ;;
      when (days_left <? 0)%Z
        (modify (cert_set_ok false) ;;
         modify (cert_add_error msg_expired))
  | None =>
      modify (cert_set_ok false) ;;
      modify (cert_add_error msg_no_end_date)
  end.

(** Lines 100-110. *)
Definition cert_sans_step (cert : Cert) : M CertResult unit :=
  modify (cert_set_sans (cert_names cert)).

(** Lines 122-125. *)
Definition cert_coverage : M CertResult unit :=
  result <- get ;;
  modify (cert_set_covers_domain (existsb (covers domain) (cert_sans result))) ;;
  result <- get ;;
  when (negb (cert_covers_domain result))
    (modify (cert_set_ok false) ;;
     modify (cert_add_error (msg_not_covered domain))).

Definition cert_body : M CertResult unit :=
  cert <- call (getpeercert env domain) ;;
  cert_expiry cert ;;
  cert_sans_step cert ;;
  cert_coverage.

Definition cert_handler (e : exn) : M CertResult unit :=
  modify (cert_set_ok false) ;;
  modify (cert_add_error (msg_ssl_failed e)).

Definition cert_check : outcome CertResult :=
  run_checker cert_init (try_except cert_body cert_handler).

End CertCheck.

(** ** The route [index] *)

Record Report : Type := {
  rep_domain : string;
  rep_expected_ip : string;
  rep_expected_cname : string;
  rep_dns : DnsResult;
  rep_https : HttpsResult;
  rep_cert : CertResult;
  rep_ok_all : bool
}.

(** The value of [data] handed to the template. *)
Inductive Data : Type :=
| DataError (error : string)
| DataReport (report : Report).

(** [request.form.get(key, default)]: the first value of the key. *)
Fixpoint form_get (form : list (string * string)) (key default : string)
  : string :=
  match form with
  | [] => default
  | (k, v) :: rest => if String.eqb k key then v else form_get rest key default
  end.

Definition obind {A B} (o : outcome A) (k : A -> outcome B) : outcome B :=
  match o with
  | Returns a => k a
  | Raises e => Raises e
  end.

Definition index (env : Env) (method : string) (form : list (string * string))
  : outcome (option Data) :=
  if String.eqb method "POST" then
    let domain := PyStr.strip (form_get form "domain" "") in
    let expected_ip := PyStr.strip (form_get form "expected_ip" "") in
    let expected_cname := PyStr.strip (form_get form "expected_cname" "") in
    if negb (PyStr.truthy domain) then
      Returns (Some (DataError "Please enter a domain."))
    else
      obind (dns_checks env domain expected_ip expected_cname) (fun dns_res =>
      obind (https_check env domain) (fun https_res =>
      obind (cert_check env domain) (fun cert_res =>
      let ok_all := dns_ok dns_res && https_ok https_res && cert_ok cert_res in
      Returns (Some (DataReport
        {| rep_domain := domain;
           rep_expected_ip := expected_ip;
           rep_expected_cname := expected_cname;
           rep_dns := dns_res;
           rep_https := https_res;
           rep_cert := cert_res;
           rep_ok_all := ok_all |})))))
  else Returns None.

(** ** Sample worlds *)

Definition unreachable {A} (msg : string) : outcome A :=
  Raises (OtherException msg).

(** A certificate for [good.example], with either end date. *)
Definition sample_cert : Cert :=
  {| notAfter := Some "Aug 13 15:04:05 2030 GMT";
     subjectAltName := Some [("DNS", "good.example"); ("DNS", "*.good.example")];
     subject := Some [[("commonName", "good.example")]] |}.

(** 3 November 2026, 12:00:00 and 13 August 2030, 15:04:05, in
    microseconds from 1 January of year 1. *)
Definition sample_now : Z := 63929304000000000.
Definition sample_expiry : Z := 64048460645000000.

(** The world of a correctly set up [good.example]. *)
Definition env_good : Env :=
  {| resolve := fun _ rdtype =>
       if String.eqb rdtype "A" then Returns ["192.0.2.10"]
       else unreachable "The DNS response does not contain an answer";
     requests_head := fun _ => Returns 200%Z;
     getpeercert := fun _ => Returns sample_cert;
     strptime := fun _ _ => Returns sample_expiry;
     utcnow := sample_now |}.

(** A world in which nothing answers. *)
Definition env_down : Env :=
  {| resolve := fun _ _ => unreachable "NXDOMAIN";
     requests_head := fun _ => Raises (RequestException "connection refused");
     getpeercert := fun _ => unreachable "timed out";
     strptime := fun _ _ => unreachable "unparsable time";
     utcnow := sample_now |}.

(** A world chosen by the three verdicts it leads to. *)
Definition env_of (dns_up https_up cert_up : bool) : Env :=
  {| resolve := if dns_up then resolve env_good else resolve env_down;
     requests_head := fun _ => Returns (if https_up then 200%Z else 404%Z);
     getpeercert := if cert_up then getpeercert env_good
                    else getpeercert env_down;
     strptime := strptime env_good;
     utcnow := sample_now |}.

(** A world whose only CNAME points at the root name. *)
Definition env_root_cname : Env :=
  {| resolve := fun _ rdtype =>
       if String.eqb rdtype "CNAME" then Returns ["."]
       else unreachable "The DNS response does not contain an answer";
     requests_head := requests_head env_good;
     getpeercert := getpeercert env_good;
     strptime := strptime env_good;
     utcnow := sample_now |}.

(** A world with a CNAME to [foo.example.com]. *)
Definition env_cname : Env :=
  {| resolve := fun _ rdtype =>
       if String.eqb rdtype "CNAME" then Returns ["foo.example.com."]
       else unreachable "The DNS response does not contain an answer";
     requests_head := requests_head env_good;
     getpeercert := getpeercert env_good;
     strptime := strptime env_good;
     utcnow := sample_now |}.

(** A world in which the HTTP client fails outside its own exception
    hierarchy. *)
Definition env_http_leak : Env :=
  {| resolve := resolve env_good;
     requests_head := fun _ => unreachable "label empty or too long";
     getpeercert := getpeercert env_good;
     strptime := strptime env_good;
     utcnow := sample_now |}.

(** ** What the checkers compute, in closed form *)

(** [result["a_records"]] after lines 12-16. *)
Definition a_records_found (env : Env) (domain : string) : list string :=
  match resolve env domain "A" with
  | Returns answers => answers
  | Raises _ => []
  end.

(** [result["cname"]] after lines 19-24. *)
Definition cname_found (env : Env) (domain : string) : option string :=
  match resolve env domain "CNAME" with
  | Returns (target :: _) => Some (PyStr.rstrip target dot)
  | _ => None
  end.

Definition found_text (c : option string) : string :=
  match c with
  | Some c => if PyStr.truthy c then c else "none"
  | None => "none"
  end.

Definition cname_agrees (c : option string) (expected_cname : string) : bool :=
  String.eqb (PyStr.rstrip (or_empty c) dot) (PyStr.rstrip expected_cname dot).

Definition dns_report (env : Env) (domain expected_ip expected_cname : string)
  : DnsResult :=
  let a := a_records_found env domain in
  let c := cname_found env domain in
  let no_records := negb (nonempty a) && negb (truthy_opt c) in
  let ip_bad := PyStr.truthy expected_ip && negb (contains a expected_ip) in
  let cname_bad :=
    PyStr.truthy expected_cname && negb (cname_agrees c expected_cname) in
  {| dns_ok := negb no_records && negb ip_bad && negb cname_bad;
     dns_a_records := a;
     dns_cname := c;
     dns_errors :=
       ((if no_records then [msg_no_records domain] else [])
        ++ (if ip_bad then [msg_ip_missing expected_ip] else [])
        ++ (if cname_bad then [msg_cname_mismatch (found_text c)] else []))%list;
     dns_notes :=
       ((if PyStr.truthy expected_ip && contains a expected_ip
         then [msg_ip_present expected_ip] else [])
        ++ (if PyStr.truthy expected_cname && cname_agrees c expected_cname
            then [msg_cname_match expected_cname] else []))%list |}.

Definition https_report (env : Env) (domain : string) : outcome HttpsResult :=
  match requests_head env (https_url domain) with
  | Returns status_code =>
      Returns
        {| https_ok := negb (400 <=? status_code)%Z;
           https_status := Some status_code;
           https_errors :=
             if (400 <=? status_code)%Z then [msg_http_status status_code]
             else [] |}
  | Raises (RequestException m) =>
      Returns
        {| https_ok := false;
           https_status := None;
           https_errors := [msg_connect_failed (RequestException m)] |}
  | Raises e => Raises e
  end.

(** The result when [cert_check] ends in its handler. *)
Definition cert_failed (not_after : option string) (e : exn) : CertResult :=
  {| cert_ok := false; cert_not_after := not_after; cert_days_left := None;
     cert_sans := []; cert_covers_domain := false;
     cert_errors := [msg_ssl_failed e]; cert_warnings := [] |}.

Definition cert_report (env : Env) (domain : string) : CertResult :=
  match getpeercert env domain with
  | Raises e => cert_failed None e
  | Returns cert =>
      let sans := cert_names cert in
      let covered := existsb (covers domain) sans in
      let uncovered := if covered then [] else [msg_not_covered domain] in
      match notAfter cert with
      | None =>
          {| cert_ok := false; cert_not_after := None;
             cert_days_left := None; cert_sans := sans;
             cert_covers_domain := covered;
             cert_errors := (msg_no_end_date :: uncovered);
             cert_warnings := [] |}
      | Some not_after_str =>
          match strptime env not_after_str not_after_format with
          | Raises e => cert_failed (Some not_after_str) e
          | Returns dt =>
              let days_left := timedelta_days (dt - utcnow env) in
              {| cert_ok := negb (days_left <? 0)%Z && covered;
                 cert_not_after := Some not_after_str;
                 cert_days_left := Some days_left;
                 cert_sans := sans;
                 cert_covers_domain := covered;
                 cert_errors :=
                   ((if (days_left <? 0)%Z then [msg_expired] else [])
                    ++ uncovered)%list;
                 cert_warnings := [] |}
          end
      end
  end.

(** A computation that never sets [ok] back to true. *)
Definition keeps_failed {S A : Type} (ok : S -> bool) (m : M S A) : Prop :=
  forall s, ok s = false -> ok (snd (m s)) = false.

(** A form that asks for [good.example] and expects nothing. *)
Definition good_form : list (string * string) :=
  [("domain", " good.example "); ("expected_ip", ""); ("expected_cname", "")].

(** The world of [good.example] with a certificate that ended one day
    before [sample_now]. *)
Definition env_expired : Env :=
  {| resolve := resolve env_good;
     requests_head := requests_head env_good;
     getpeercert := getpeercert env_good;
     strptime := fun _ _ => Returns (sample_now - us_per_day)%Z;
     utcnow := sample_now |}.

(** The same with a certificate that ends thirty days after
    [sample_now]. *)
Definition env_thirty_days : Env :=
  {| resolve := resolve env_good;
     requests_head := requests_head env_good;
     getpeercert := getpeercert env_good;
     strptime := fun _ _ => Returns (sample_now + 30 * us_per_day)%Z;
     utcnow := sample_now |}.

(** ** Shapes of strings and of worlds used in the statements below *)

(** The strings of [l] one after the other. *)
Definition concat_all (l : list string) : string :=
  fold_right String.append EmptyString l.

(** [s] is made of white-space characters only (possibly none). *)
Definition all_space (s : string) : Prop :=
  exists l, Forall (fun w => In w PyStr.white_space) l /\ s = concat_all l.


(** [n] dots in a row. *)
Fixpoint dots (n : nat) : string :=
  match n with
  | O => EmptyString
  | S n' => String dot (dots n')
  end.

(** No pair of the form has the key [key]. *)
Definition key_absent (form : list (string * string)) (key : string) : Prop :=
  forall k v, In (k, v) form -> k <> key.

(** A world with a second A record, to look an address up in. *)
Definition env_two_addresses : Env :=
  {| resolve := fun _ rdtype =>
       if String.eqb rdtype "A" then Returns ["192.0.2.10"; "192.0.2.11"]
       else unreachable "The DNS response does not contain an answer";
     requests_head := fun _ => Returns 301%Z;
     getpeercert := getpeercert env_good;
     strptime := fun _ _ => unreachable "time data does not match format";
     utcnow := sample_now |}.

(** A certificate without a subject alternative name, whose subject has
    two common names in different relative distinguished names. *)
Definition cn_only_cert : Cert :=
  {| notAfter := Some "Aug 13 15:04:05 2030 GMT";
     subjectAltName := Some [("IP Address", "192.0.2.10")];
     subject := Some [[("countryName", "XX")];
                      [("commonName", "old.example")];
                      [("organizationName", "Example");
                       ("commonName", "good.example")]] |}.

Definition env_cn_only : Env :=
  {| resolve := resolve env_good;
     requests_head := requests_head env_good;
     getpeercert := fun _ => Returns cn_only_cert;
     strptime := strptime env_good;
     utcnow := sample_now |}.


(** ** The string operations on sample inputs *)

Example of_int_404 : PyStr.of_int 404 = "404".
Proof. reflexivity. Qed.

Example of_int_negative : PyStr.of_int (-7) = "-7".
Proof. reflexivity. Qed.

Example rstrip_trailing_dots : PyStr.rstrip "a.b.." dot = "a.b".
Proof. reflexivity. Qed.

Example rstrip_root_name : PyStr.rstrip "." dot = "".
Proof. reflexivity. Qed.

Example strip_form_value : PyStr.strip "  good.example  " = "good.example".
Proof. reflexivity. Qed.

Example split_suffix : PyStr.split ".example.com" dot = [""; "example"; "com"].
Proof. reflexivity. Qed.

Example endswith_suffix : PyStr.endswith "a.example.com" ".example.com" = true.
Proof. reflexivity. Qed.

Example count_dots :
  PyStr.count "a.example.com" dot = PyStr.count ".example.com" dot.
Proof. reflexivity. Qed.

Example covers_exact : covers "example.com" "example.com" = true.
Proof. reflexivity. Qed.

Example covers_two_labels_deep : covers "x.y.a.com" "*.a.com" = true.
Proof. reflexivity. Qed.

Example timedelta_one_second_ago : timedelta_days (-1000000) = (-1)%Z.
Proof. reflexivity. Qed.

Example common_name_last_wins :
  common_name_fallback
    [[("commonName", "first.example"); ("commonName", "skipped.example")];
     [("organizationName", "Example")];
     [("commonName", "last.example")]] []
  = ["last.example"].
Proof. reflexivity. Qed.

(** ** String lemmas *)

Lemma drop_decompose (n : nat) (s : string) :
  exists p, s = p ++ PyStr.drop n s.
Proof.
  revert s; induction n as [|n IH]; intros s.
  - exists ""; reflexivity.
  - destruct s as [|c s]; simpl.
    + exists ""; reflexivity.
    + destruct (IH s) as [p Hp]. exists (String c p). simpl. now rewrite <- Hp.
Qed.

Lemma drop_app_length (p s : string) :
  PyStr.drop (String.length p) (p ++ s) = s.
Proof. induction p as [|c p IH]; simpl; [now destruct s | exact IH]. Qed.

Lemma length_app (p s : string) :
  String.length (p ++ s) = (String.length p + String.length s)%nat.
Proof. induction p as [|c p IH]; simpl; [reflexivity | now rewrite IH]. Qed.

Lemma endswith_spec (s suf : string) :
  PyStr.endswith s suf = true <-> exists p, s = p ++ suf.
Proof.
  unfold PyStr.endswith. rewrite andb_true_iff, Nat.leb_le, String.eqb_eq.
  split.
  - intros [_ H]. destruct (drop_decompose (String.length s - String.length suf) s)
      as [p Hp]. exists p. now rewrite H in Hp.
  - intros [p ->]. rewrite length_app. split; [lia|].
    replace (String.length p + String.length suf - String.length suf)%nat
      with (String.length p) by lia.
    apply drop_app_length.
Qed.

Lemma split_length (s : string) (c : ascii) :
  List.length (PyStr.split s c) = S (PyStr.count s c).
Proof.
  induction s as [|d s IH]; simpl; [reflexivity|].
  destruct (Ascii.eqb d c); simpl; [now rewrite IH|].
  destruct (PyStr.split s c); simpl in *; [discriminate | exact IH].
Qed.

Lemma covers_unfold (d san : string) :
  covers d san = true <-> san = d \/ wildcard_rule d san.
Proof.
  unfold covers, wildcard_rule.
  destruct (String.eqb_spec san d) as [->|Hne].
  - split; auto.
  - rewrite !split_length.
    destruct (PyStr.startswith san "*.") eqn:Hsw.
    + rewrite andb_true_iff, endswith_spec, Nat.ltb_lt. split.
      * intros [He Hc]. right. repeat split; auto. lia.
      * intros [Heq|(_ & He & Hc)]; [contradiction|]. split; auto. lia.
    + split; [discriminate|]. intros [Heq|(Hf & _)]; [contradiction|discriminate].
Qed.

Lemma count_app (p s : string) (c : ascii) :
  PyStr.count (p ++ s) c = (PyStr.count p c + PyStr.count s c)%nat.
Proof.
  induction p as [|d p IH]; simpl; [reflexivity|].
  destruct (Ascii.eqb d c); simpl; now rewrite IH.
Qed.

(** A wildcard SAN covers a name other than itself only when what stands
    in front of the suffix contains a dot. *)
Lemma wildcard_needs_dotted_prefix (p san : string) :
  PyStr.count p dot = 0%nat ->
  p ++ PyStr.slice_from_1 san <> san ->
  covers (p ++ PyStr.slice_from_1 san) san = false.
Proof.
  intros Hp Hne. unfold covers.
  destruct (String.eqb_spec san (p ++ PyStr.slice_from_1 san)) as [E|_].
  - now elim Hne.
  - destruct (PyStr.startswith san "*."); [|reflexivity].
    rewrite count_app, Hp. simpl.
    rewrite Nat.ltb_irrefl. apply andb_false_r.
Qed.

(** No single label in front of [.example.com] is covered by
    [*.example.com], except the star itself (the exact match). *)
Lemma wildcard_single_label (label : string) :
  PyStr.count label dot = 0%nat ->
  covers (label ++ ".example.com") "*.example.com" = String.eqb label "*".
Proof.
  intros Hc.
  destruct (String.eqb_spec label "*") as [->|Hne]; [reflexivity|].
  apply (wildcard_needs_dotted_prefix label "*.example.com" Hc).
  simpl. intros E.
  assert (L : String.length (label ++ ".example.com")
              = String.length "*.example.com") by now rewrite E.
  rewrite length_app in L. simpl in L.
  destruct label as [|c [|c' l]]; simpl in *; try lia.
  injection E as ->. now elim Hne.
Qed.

(** C1: on the code, [covers "a.example.com" "*.example.com"] is false:
    the suffix [.example.com] and the domain both contain two dots, and
    the test asks for strictly more.  The rule the code applies is: the
    SAN equals the domain, or the SAN starts with star-dot, the domain
    ends with the SAN less its star and has strictly more dot-separated
    labels than that suffix; so [*.example.com] covers [a.b.example.com]
    and neither [example.com] nor [a.example.com]. *)
Theorem covers_rejects_one_label_wildcard :
  covers "a.example.com" "*.example.com" = false
  /\ covers "a.b.example.com" "*.example.com" = true
  /\ covers "example.com" "*.example.com" = false
  /\ (forall d san, covers d san = true <-> san = d \/ wildcard_rule d san).
Proof.
  repeat apply conj; try reflexivity. exact covers_unfold.
Qed.

(** ** The checkers in closed form *)

Ltac run_monad :=
  unfold run_checker, try_except, try_except_request, bind, when, call, get,
    modify, ret.

Ltac split_matches :=
  repeat match goal with
    | |- context [match ?x with _ => _ end] => destruct x eqn:?; simpl in *
    end.

Lemma bind_returns {S A B : Type} (m : M S A) (k : A -> M S B) s a s' :
  m s = (Returns a, s') -> bind m k s = k a s'.
Proof. intros H. unfold bind. now rewrite H. Qed.

Lemma bind_raises {S A B : Type} (m : M S A) (k : A -> M S B) s e s' :
  m s = (Raises e, s') -> bind m k s = (Raises e, s').
Proof. intros H. unfold bind. now rewrite H. Qed.

Section DnsRuns.
Variable env : Env.
Variables domain expected_ip expected_cname : string.

Lemma dns_resolve_a_run (s : DnsResult) :
  dns_resolve_a env domain s
  = (Returns tt, dns_set_a_records (a_records_found env domain) s).
Proof.
  unfold dns_resolve_a, a_records_found. run_monad.
  now destruct (resolve env domain "A").
Qed.

Lemma dns_resolve_cname_run (s : DnsResult) :
  dns_resolve_cname env domain s
  = (Returns tt, dns_set_cname (cname_found env domain) s).
Proof.
  unfold dns_resolve_cname, cname_found, first_answer. run_monad.
  now destruct (resolve env domain "CNAME") as [[|t l]|e].
Qed.

Lemma dns_no_records_run (s : DnsResult) :
  dns_no_records domain s
  = (Returns tt,
     if negb (nonempty (dns_a_records s)) && negb (truthy_opt (dns_cname s))
     then dns_set_ok false (dns_add_error (msg_no_records domain) s)
     else s).
Proof.
  unfold dns_no_records. run_monad.
  now destruct (negb (nonempty (dns_a_records s)) && negb (truthy_opt (dns_cname s))).
Qed.

Lemma dns_expected_ip_run (s : DnsResult) :
  dns_expected_ip expected_ip s
  = (Returns tt,
     if PyStr.truthy expected_ip then
       if contains (dns_a_records s) expected_ip
       then dns_add_note (msg_ip_present expected_ip) s
       else dns_set_ok false (dns_add_error (msg_ip_missing expected_ip) s)
     else s).
Proof.
  unfold dns_expected_ip. run_monad.
  destruct (PyStr.truthy expected_ip); [|reflexivity].
  now destruct (contains (dns_a_records s) expected_ip).
Qed.

Lemma dns_expected_cname_run (s : DnsResult) :
  dns_expected_cname expected_cname s
  = (Returns tt,
     if PyStr.truthy expected_cname then
       if cname_agrees (dns_cname s) expected_cname
       then dns_add_note (msg_cname_match expected_cname) s
       else dns_set_ok false
              (dns_add_error (msg_cname_mismatch (found_text (dns_cname s))) s)
     else s).
Proof.
  unfold dns_expected_cname, cname_agrees, found_text. run_monad.
  destruct (PyStr.truthy expected_cname); [|reflexivity].
  now destruct (String.eqb _ _).
Qed.

(** The body of [dns_checks] never reaches the outer handler. *)
Lemma dns_body_returns (s : DnsResult) :
  exists s', dns_body env domain expected_ip expected_cname s = (Returns tt, s').
Proof.
  unfold dns_body.
  erewrite bind_returns by apply dns_resolve_a_run.
  erewrite bind_returns by apply dns_resolve_cname_run.
  erewrite bind_returns by apply dns_no_records_run.
  erewrite bind_returns by apply dns_expected_ip_run.
  rewrite dns_expected_cname_run. eauto.
Qed.

Lemma dns_checks_report :
  dns_checks env domain expected_ip expected_cname
  = Returns (dns_report env domain expected_ip expected_cname).
Proof.
  unfold dns_checks, run_checker, try_except, dns_body.
  erewrite bind_returns by apply dns_resolve_a_run.
  erewrite bind_returns by apply dns_resolve_cname_run.
  erewrite bind_returns by apply dns_no_records_run.
  erewrite bind_returns by apply dns_expected_ip_run.
  rewrite dns_expected_cname_run. unfold dns_report. simpl.
  destruct (nonempty (a_records_found env domain)) eqn:Ea;
    destruct (truthy_opt (cname_found env domain)) eqn:Ec; simpl;
    destruct (PyStr.truthy expected_ip); simpl;
    rewrite ?Ea, ?Ec; simpl;
    destruct (contains (a_records_found env domain) expected_ip) eqn:Ei; simpl;
    destruct (PyStr.truthy expected_cname); simpl;
    rewrite ?Ea, ?Ec, ?Ei; simpl;
    destruct (cname_agrees (cname_found env domain) expected_cname) eqn:En;
    simpl; rewrite ?En; reflexivity.
Qed.

End DnsRuns.
Lemma https_check_report (env : Env) (domain : string) :
  https_check env domain = https_report env domain.
Proof.
  unfold https_check, https_report, https_body, https_handler. run_monad.
  destruct (requests_head env (https_url domain)) as [st|[m|m]]; simpl;
    [destruct (400 <=? st)%Z|..]; reflexivity.
Qed.

Section CertRuns.
Variable env : Env.
Variable domain : string.

Lemma cert_check_report :
  cert_check env domain = Returns (cert_report env domain).
Proof.
  unfold cert_check, cert_report, run_checker, try_except, cert_body,
    cert_handler, cert_sans_step, cert_expiry.
  run_monad. unfold cert_coverage. run_monad.
  destruct (getpeercert env domain) as [cert|e]; [|reflexivity].
  destruct (notAfter cert) as [na|]; simpl.
  - destruct (strptime env na not_after_format) as [dt|e]; [|reflexivity].
    simpl.
    destruct (timedelta_days (dt - utcnow env) <? 0)%Z; simpl;
      destruct (existsb (covers domain) (cert_names cert)); reflexivity.
  - destruct (existsb (covers domain) (cert_names cert)); reflexivity.
Qed.

End CertRuns.

(** ** The aggregated verdict *)

(** C2: the [ok_all] of every report that [index] builds is the
    conjunction of the [ok] of its three checker results, which are the
    results of the three checkers on the submitted domain; and each of the
    eight combinations of verdicts is produced by some world, where
    [ok_all] is again their conjunction. *)
Theorem index_ok_all_is_conjunction :
  (forall env method form report,
     index env method form = Returns (Some (DataReport report)) ->
     dns_checks env (rep_domain report) (rep_expected_ip report)
       (rep_expected_cname report) = Returns (rep_dns report)
     /\ https_check env (rep_domain report) = Returns (rep_https report)
     /\ cert_check env (rep_domain report) = Returns (rep_cert report)
     /\ rep_ok_all report
        = dns_ok (rep_dns report) && https_ok (rep_https report)
          && cert_ok (rep_cert report)
     /\ (rep_ok_all report = true
         <-> dns_ok (rep_dns report) = true
             /\ https_ok (rep_https report) = true
             /\ cert_ok (rep_cert report) = true))
  /\ (forall a b c : bool,
        exists env report,
          index env "POST" good_form = Returns (Some (DataReport report))
          /\ dns_ok (rep_dns report) = a
          /\ https_ok (rep_https report) = b
          /\ cert_ok (rep_cert report) = c
          /\ rep_ok_all report = a && b && c).
Proof.
  split.
  - intros env method form report. unfold index.
    destruct (String.eqb method "POST"); [|discriminate].
    destruct (negb (PyStr.truthy (PyStr.strip (form_get form "domain" ""))));
      [discriminate|].
    rewrite dns_checks_report, cert_check_report. simpl.
    destruct (https_check env _) as [h|e] eqn:Eh; simpl; [|discriminate].
    intros H. injection H as <-. simpl.
    rewrite dns_checks_report, cert_check_report, Eh.
    repeat apply conj; try reflexivity.
    + rewrite !andb_true_iff. tauto.
    + rewrite !andb_true_iff. tauto.
  - intros a b c. exists (env_of a b c).
    destruct a, b, c; eexists; (split; [vm_compute; reflexivity|]);
      repeat apply conj; reflexivity.
Qed.

(** The report for [good.example] in the good world. *)
Lemma index_ok_all_is_conjunction_witness :
  exists report,
    index env_good "POST" good_form = Returns (Some (DataReport report))
    /\ rep_ok_all report
       = dns_ok (rep_dns report) && https_ok (rep_https report)
         && cert_ok (rep_cert report).
Proof.
  eexists. split; [vm_compute; reflexivity|].
  refine (proj1 (proj2 (proj2 (proj2
    (proj1 index_ok_all_is_conjunction env_good "POST" good_form _ _))))).
  vm_compute; reflexivity.
Defined.

(** ** The HTTPS checker *)



(** ** The certificate checker *)

Lemma timedelta_days_floor (delta : Z) :
  (timedelta_days delta * us_per_day <= delta
   < (timedelta_days delta + 1) * us_per_day)%Z.
Proof.
  unfold timedelta_days, us_per_day.
  pose proof (Z.div_mod delta 86400000000 ltac:(lia)).
  pose proof (Z.mod_pos_bound delta 86400000000 ltac:(lia)). lia.
Qed.

Lemma expired_is_not_uncovered (domain : string) :
  msg_expired <> msg_not_covered domain.
Proof. unfold msg_expired, msg_not_covered. simpl. discriminate. Qed.

Lemma ssl_failed_is_not_uncovered (domain : string) (e : exn) :
  msg_ssl_failed e <> msg_not_covered domain.
Proof. unfold msg_ssl_failed, msg_not_covered. simpl. discriminate. Qed.

(** C3: when the certificate has a [notAfter] that parses, [days_left] is
    the floor of (end date - current UTC time) in days; a negative
    [days_left] puts "Certificate has expired." into the errors and makes
    [ok] false, and an end date not before the current time leaves that
    error out; when the certificate has no [notAfter], the error "No
    certificate end date present." is recorded and [ok] is false. *)
Theorem cert_expiry_days_left :
  forall env domain r cert,
    cert_check env domain = Returns r ->
    getpeercert env domain = Returns cert ->
    (forall s dt,
       notAfter cert = Some s ->
       strptime env s not_after_format = Returns dt ->
       exists days,
         cert_days_left r = Some days
         /\ (days * us_per_day <= dt - utcnow env < (days + 1) * us_per_day)%Z
         /\ cert_not_after r = Some s
         /\ ((days < 0)%Z ->
             In "Certificate has expired." (cert_errors r)
             /\ cert_ok r = false)
         /\ ((utcnow env <= dt)%Z ->
             (0 <= days)%Z /\ ~ In "Certificate has expired." (cert_errors r)))
    /\ (notAfter cert = None ->
        In "No certificate end date present." (cert_errors r)
        /\ PyStr.startswith "No certificate end date present."
             "No certificate end date present" = true
        /\ cert_ok r = false
        /\ cert_days_left r = None).
Proof.
  intros env domain r cert Hr Hc. rewrite cert_check_report in Hr.
  injection Hr as <-. unfold cert_report. rewrite Hc. split.
  - intros s dt Hs Hdt. rewrite Hs, Hdt. simpl.
    exists (timedelta_days (dt - utcnow env)).
    pose proof (timedelta_days_floor (dt - utcnow env)) as Hfl.
    split; [reflexivity|]. split; [exact Hfl|]. split; [reflexivity|].
    unfold us_per_day in Hfl. split.
    + intros Hneg. apply Z.ltb_lt in Hneg. rewrite Hneg. simpl. auto.
    + intros Hfut.
      assert (Hge : (timedelta_days (dt - utcnow env) <? 0)%Z = false)
        by (apply Z.ltb_ge; lia).
      rewrite Hge. simpl. split; [lia|].
      destruct (existsb (covers domain) (cert_names cert)); simpl;
        [tauto|].
      intros [H|[]]. now apply (expired_is_not_uncovered domain).
  - intros Hn. rewrite Hn. simpl. repeat apply conj; auto.
Qed.

(** A certificate that ended one day ago. *)
Lemma cert_expiry_days_left_witness :
  exists r,
    cert_check env_expired "good.example" = Returns r
    /\ cert_days_left r = Some (-1)%Z
    /\ In "Certificate has expired." (cert_errors r)
    /\ cert_ok r = false.
Proof.
  eexists. split; [vm_compute; reflexivity|].
  destruct (proj1 (cert_expiry_days_left env_expired "good.example" _
                     sample_cert eq_refl eq_refl)
              "Aug 13 15:04:05 2030 GMT" (sample_now - us_per_day)%Z
              eq_refl eq_refl)
    as (days & Hd & _ & _ & Hneg & _).
  simpl in Hd. injection Hd as <-.
  split; [reflexivity|]. apply Hneg. vm_compute. reflexivity.
Defined.

Example thirty_days_left :
  cert_check env_thirty_days "good.example"
  = Returns
      {| cert_ok := true;
         cert_not_after := Some "Aug 13 15:04:05 2030 GMT";
         cert_days_left := Some 30%Z;
         cert_sans := ["good.example"; "*.good.example"];
         cert_covers_domain := true;
         cert_errors := [];
         cert_warnings := [] |}.
Proof. reflexivity. Qed.

(** C10: for every result that [cert_check] returns, [ok] is false
    exactly when the errors are not empty. *)
Theorem cert_ok_false_iff_errors :
  forall env domain r,
    cert_check env domain = Returns r ->
    (cert_ok r = false <-> cert_errors r <> []).
Proof.
  intros env domain r Hr. rewrite cert_check_report in Hr.
  injection Hr as <-. unfold cert_report, cert_failed.
  destruct (getpeercert env domain) as [cert|e]; simpl;
    [|split; [discriminate|reflexivity]].
  destruct (notAfter cert) as [s|]; simpl;
    [|split; [discriminate|reflexivity]].
  destruct (strptime env s not_after_format) as [dt|e]; simpl;
    [|split; [discriminate|reflexivity]].
  destruct (timedelta_days (dt - utcnow env) <? 0)%Z;
    destruct (existsb (covers domain) (cert_names cert)); simpl;
    split; try discriminate; try reflexivity; intros H; now elim H.
Qed.

(** A host that cannot be reached. *)
Lemma cert_ok_false_iff_errors_witness :
  exists r,
    cert_check env_down "good.example" = Returns r
    /\ (cert_ok r = false <-> cert_errors r <> []).
Proof.
  eexists. split; [vm_compute; reflexivity|].
  apply (cert_ok_false_iff_errors env_down "good.example"). reflexivity.
Defined.

(** C7, as stated, fails when the certificate cannot be fetched:
    [covers_domain] keeps its initial value false, and the only error
    recorded is the one of the handler. *)
Lemma cert_unreachable_lacks_coverage_error :
  exists r,
    cert_check env_down "good.example" = Returns r
    /\ cert_covers_domain r = false
    /\ ~ In "Certificate does NOT cover domain good.example." (cert_errors r).
Proof.
  eexists. split; [vm_compute; reflexivity|]. split; [reflexivity|].
  simpl. intros [H|[]]. discriminate H.
Qed.

(** C7 (amended): [covers_domain] is true only when some reported SAN
    covers the domain under the exact-or-wildcard rule: the SAN equals the
    domain, or it starts with star-dot and the domain is the SAN less its
    star with something in front.  For a certificate that was fetched and
    whose end date, if any, parsed, the reported SANs are those of the
    certificate, [covers_domain] is true whenever one of them equals the
    domain or is such a wildcard with a dot in what stands in front of its
    suffix, and a false [covers_domain] comes with the error "Certificate
    does NOT cover domain {domain}." and a false [ok].  When fetching or
    parsing raised, [covers_domain] and [ok] are false and the one error
    is "openssl/SSL failed: {e}". *)
Theorem cert_covers_domain_requires_matching_san :
  forall env domain r,
    cert_check env domain = Returns r ->
    (cert_covers_domain r = true ->
     exists san,
       In san (cert_sans r)
       /\ (san = domain
           \/ (PyStr.startswith san "*." = true
               /\ exists p, p <> ""
                            /\ domain = p ++ PyStr.slice_from_1 san)))
    /\ (forall cert,
          getpeercert env domain = Returns cert ->
          (forall s, notAfter cert = Some s ->
             exists dt, strptime env s not_after_format = Returns dt) ->
          cert_sans r = cert_names cert
          /\ (forall san,
                In san (cert_names cert) ->
                san = domain
                \/ (PyStr.startswith san "*." = true
                    /\ exists p, (0 < PyStr.count p dot)%nat
                                 /\ domain = p ++ PyStr.slice_from_1 san) ->
                cert_covers_domain r = true)
          /\ (cert_covers_domain r = false ->
              In ("Certificate does NOT cover domain " ++ domain ++ ".")
                (cert_errors r)
              /\ cert_ok r = false))
    /\ (forall e,
          getpeercert env domain = Raises e
          \/ (exists cert s,
                getpeercert env domain = Returns cert
                /\ notAfter cert = Some s
                /\ strptime env s not_after_format = Raises e) ->
          cert_covers_domain r = false
          /\ cert_ok r = false
          /\ cert_errors r = ["openssl/SSL failed: " ++ exn_str e]
          /\ ~ In ("Certificate does NOT cover domain " ++ domain ++ ".")
                 (cert_errors r)).
Proof.
  intros env domain r Hr. rewrite cert_check_report in Hr.
  injection Hr as <-.
  fold (msg_not_covered domain).
  assert (Hcov : cert_covers_domain (cert_report env domain)
                 = existsb (covers domain) (cert_sans (cert_report env domain))).
  { unfold cert_report, cert_failed.
    destruct (getpeercert env domain) as [cert|e]; simpl; [|reflexivity].
    destruct (notAfter cert) as [s|]; simpl; [|reflexivity].
    destruct (strptime env s not_after_format); simpl; reflexivity. }
  split; [|split].
  - rewrite Hcov. intros H. apply existsb_exists in H.
    destruct H as (san & Hin & Hc). exists san. split; [exact Hin|].
    apply covers_unfold in Hc.
    destruct Hc as [E|(Hsw & [p Hp] & Hlt)]; [now left|]. right.
    split; [exact Hsw|]. exists p. split; [|exact Hp].
    rewrite !split_length, Hp, count_app in Hlt.
    destruct p; [simpl in Hlt; lia | discriminate].
  - intros cert Hc Hparse.
    assert (Hs : cert_sans (cert_report env domain) = cert_names cert).
    { unfold cert_report. rewrite Hc.
      destruct (notAfter cert) as [s|]; [|reflexivity].
      now destruct (Hparse s eq_refl) as [dt ->]. }
    split; [exact Hs|]. split.
    + intros san Hin Hm. rewrite Hcov, Hs. apply existsb_exists.
      exists san. split; [exact Hin|]. apply covers_unfold.
      destruct Hm as [E|(Hsw & p & Hp & Hd)]; [now left|]. right.
      split; [exact Hsw|]. split; [eauto|].
      rewrite !split_length, Hd, count_app. lia.
    + unfold cert_report. rewrite Hc.
      destruct (notAfter cert) as [s|]; simpl.
      * destruct (Hparse s eq_refl) as [dt ->]. simpl.
        intros ->. rewrite andb_false_r. split; [|reflexivity].
        apply in_or_app. right. now left.
      * intros ->. split; [|reflexivity]. right. now left.
  - intros e He. unfold cert_report.
    assert (Hno : ~ In (msg_not_covered domain) [msg_ssl_failed e]).
    { intros [H|[]]. now apply (ssl_failed_is_not_uncovered domain e). }
    destruct He as [->|(cert & s & -> & -> & ->)]; simpl; auto.
Qed.

(** A name two labels below the wildcard SAN. *)
Lemma cert_covers_domain_requires_matching_san_witness :
  exists r,
    cert_check env_good "a.b.good.example" = Returns r
    /\ cert_sans r = ["good.example"; "*.good.example"]
    /\ cert_covers_domain r = true.
Proof.
  eexists. split; [vm_compute; reflexivity|].
  destruct (cert_covers_domain_requires_matching_san env_good
              "a.b.good.example" _ eq_refl) as (_ & Hfetched & _).
  destruct (Hfetched sample_cert eq_refl) as (Hs & Hsuff & _).
  - intros s _. exists sample_expiry. reflexivity.
  - split; [exact Hs|].
    apply (Hsuff "*.good.example"); [simpl; auto|].
    right. split; [reflexivity|]. exists "a.b".
    split; [simpl; lia | reflexivity].
Defined.

(** ** The DNS checker *)

Lemma no_records_is_not_ip_missing (domain expected_ip : string) :
  msg_ip_missing expected_ip <> msg_no_records domain.
Proof. unfold msg_ip_missing, msg_no_records. simpl. discriminate. Qed.

Lemma no_records_is_not_cname_mismatch (domain found : string) :
  msg_cname_mismatch found <> msg_no_records domain.
Proof. unfold msg_cname_mismatch, msg_no_records. simpl. discriminate. Qed.

(** C5, as stated, fails for a CNAME that points at the root name: the
    text of the target is a single dot, stripping leaves the empty string,
    and the test for a missing CNAME is a truth test. *)
Lemma dns_root_cname_reported_as_no_records :
  exists r,
    dns_checks env_root_cname "alias.example" "" "" = Returns r
    /\ dns_cname r = Some ""
    /\ In "No A or CNAME records found for alias.example" (dns_errors r).
Proof.
  eexists. split; [vm_compute; reflexivity|]. split; [reflexivity|].
  simpl. auto.
Qed.

(** C5 (amended): when the A records are empty and the CNAME is absent,
    [ok] is false and the errors contain "No A or CNAME records found for
    {domain}"; when there is an A record or a non-empty CNAME, that error
    is not added.  The reported records are those of the two lookups. *)
Theorem dns_no_records_error :
  forall env domain expected_ip expected_cname r,
    dns_checks env domain expected_ip expected_cname = Returns r ->
    (dns_a_records r = [] ->
     dns_cname r = None ->
     dns_ok r = false
     /\ In ("No A or CNAME records found for " ++ domain) (dns_errors r))
    /\ (dns_a_records r <> []
        \/ (exists c, dns_cname r = Some c /\ c <> "") ->
        ~ In ("No A or CNAME records found for " ++ domain) (dns_errors r))
    /\ dns_a_records r = a_records_found env domain
    /\ dns_cname r = cname_found env domain.
Proof.
  intros env domain expected_ip expected_cname r Hr.
  rewrite dns_checks_report in Hr. injection Hr as <-.
  fold (msg_no_records domain).
  unfold dns_report; simpl. repeat apply conj; try reflexivity.
  - intros Ha Hc. rewrite Ha.
    rewrite Hc. simpl. auto.
  - intros Hpresent.
    assert (Hno : negb (nonempty (a_records_found env domain))
                  && negb (truthy_opt (cname_found env domain)) = false).
    { destruct Hpresent as [Ha|(c & Hc & Hne)].
      - destruct (a_records_found env domain); [now elim Ha|reflexivity].
      - rewrite Hc. destruct c; [now elim Hne|]. apply andb_false_r. }
    rewrite Hno. simpl. intros Hin.
    apply in_app_or in Hin. destruct Hin as [Hin|Hin].
    + destruct (_ && _) in Hin; simpl in Hin; [|tauto].
      destruct Hin as [H|[]].
      now apply (no_records_is_not_ip_missing domain expected_ip).
    + destruct (_ && _) in Hin; simpl in Hin; [|tauto].
      destruct Hin as [H|[]].
      now apply (no_records_is_not_cname_mismatch domain
                   (found_text (cname_found env domain))).
Qed.

(** A domain without any record. *)
Lemma dns_no_records_error_witness :
  exists r,
    dns_checks env_down "good.example" "" "" = Returns r
    /\ dns_ok r = false
    /\ In "No A or CNAME records found for good.example" (dns_errors r).
Proof.
  eexists. split; [vm_compute; reflexivity|].
  apply (proj1 (dns_no_records_error env_down "good.example" "" "" _ eq_refl));
    reflexivity.
Defined.

(** C6: with a non-empty expected CNAME, the expected and the found CNAME
    are compared after their trailing dots are stripped: when they agree,
    the match note is appended and no error that starts with "CNAME does
    not match expected." is recorded; when they differ, the error "CNAME
    does not match expected. Found: '{found}'" is appended, [found] being
    the found CNAME or "none", and [ok] is false.  The expected name
    [foo.example.com.] agrees with the found name [foo.example.com]. *)
Theorem dns_expected_cname_normalised :
  forall env domain expected_ip expected_cname r,
    expected_cname <> "" ->
    dns_checks env domain expected_ip expected_cname = Returns r ->
    let norm_cname := PyStr.rstrip (or_empty (dns_cname r)) dot in
    let norm_expected := PyStr.rstrip expected_cname dot in
    let found :=
      match dns_cname r with
      | Some "" => "none"
      | Some c => c
      | None => "none"
      end in
    (norm_cname = norm_expected ->
     In ("CNAME matches expected (" ++ expected_cname ++ ").") (dns_notes r)
     /\ forall e, In e (dns_errors r) ->
          PyStr.startswith e "CNAME does not match expected." = false)
    /\ (norm_cname <> norm_expected ->
        In ("CNAME does not match expected. Found: '" ++ found ++ "'")
          (dns_errors r)
        /\ dns_ok r = false)
    /\ PyStr.rstrip "foo.example.com." dot = PyStr.rstrip "foo.example.com" dot.
Proof.
  intros env domain expected_ip expected_cname r Hne Hr.
  rewrite dns_checks_report in Hr. injection Hr as <-.
  assert (Ht : PyStr.truthy expected_cname = true)
    by (destruct expected_cname; [now elim Hne|reflexivity]).
  unfold dns_report;
    cbn [dns_cname dns_notes dns_errors dns_ok dns_a_records].
  rewrite Ht. cbn [andb].
  set (c := cname_found env domain).
  assert (Hag : cname_agrees c expected_cname = true
                <-> PyStr.rstrip (or_empty c) dot
                    = PyStr.rstrip expected_cname dot)
    by apply String.eqb_eq.
  assert (Hfound : match c with Some "" => "none" | Some c' => c'
                   | None => "none" end = found_text c)
    by (destruct c as [[|c0 c']|]; reflexivity).
  rewrite Hfound. fold (msg_cname_match expected_cname).
  fold (msg_cname_mismatch (found_text c)).
  destruct (cname_agrees c expected_cname); cbn [negb];
    (split; [|split; [|reflexivity]]).
  - intros _. split; [apply in_or_app; right; now left|].
    rewrite app_nil_r. intros e Hin.
    apply in_app_or in Hin. destruct Hin as [Hin|Hin].
    + destruct (_ && _) in Hin; simpl in Hin; [|tauto].
      destruct Hin as [<-|[]]. reflexivity.
    + destruct (_ && _) in Hin; simpl in Hin; [|tauto].
      destruct Hin as [<-|[]]. reflexivity.
  - intros E. elim E. now apply Hag.
  - intros E. apply Hag in E. discriminate E.
  - intros _. split.
    + apply in_or_app. right. apply in_or_app. right. now left.
    + now rewrite !andb_false_r.
Qed.

(** An expected CNAME written with its trailing dot. *)
Lemma dns_expected_cname_normalised_witness :
  exists r,
    dns_checks env_cname "alias.example" "" "foo.example.com." = Returns r
    /\ dns_cname r = Some "foo.example.com"
    /\ In "CNAME matches expected (foo.example.com.)." (dns_notes r)
    /\ dns_errors r = [].
Proof.
  eexists. split; [vm_compute; reflexivity|].
  split; [reflexivity|]. split; [|reflexivity].
  apply (proj1 (dns_expected_cname_normalised env_cname "alias.example" ""
                  "foo.example.com." _ ltac:(discriminate) eq_refl)).
  reflexivity.
Defined.

(** ** [ok] only ever falls *)

Section KeepsFailed.
Context {S : Type} (ok : S -> bool).

Lemma keeps_failed_ret {A} (a : A) : keeps_failed ok (ret a).
Proof. intros s H. exact H. Qed.

Lemma keeps_failed_call {A} (o : outcome A) : keeps_failed ok (call o).
Proof. intros s H. exact H. Qed.

Lemma keeps_failed_get : keeps_failed ok get.
Proof. intros s H. exact H. Qed.

Lemma keeps_failed_modify (f : S -> S) :
  (forall s, ok s = false -> ok (f s) = false) -> keeps_failed ok (modify f).
Proof. intros Hf s H. simpl. auto. Qed.

Lemma keeps_failed_bind {A B} (m : M S A) (k : A -> M S B) :
  keeps_failed ok m -> (forall a, keeps_failed ok (k a)) ->
  keeps_failed ok (bind m k).
Proof.
  intros Hm Hk s H. unfold bind. specialize (Hm s H).
  destruct (m s) as [[a|e] s']; simpl in *; [now apply Hk | exact Hm].
Qed.

Lemma keeps_failed_try_except {A} (m : M S A) (h : exn -> M S A) :
  keeps_failed ok m -> (forall e, keeps_failed ok (h e)) ->
  keeps_failed ok (try_except m h).
Proof.
  intros Hm Hh s H. unfold try_except. specialize (Hm s H).
  destruct (m s) as [[a|e] s']; simpl in *; [exact Hm | now apply Hh].
Qed.

Lemma keeps_failed_when (b : bool) (m : M S unit) :
  keeps_failed ok m -> keeps_failed ok (when b m).
Proof. intros Hm. destruct b; [exact Hm | apply keeps_failed_ret]. Qed.

End KeepsFailed.

Ltac keeps :=
  repeat first
    [ apply keeps_failed_bind; [|intros ?]
    | apply keeps_failed_try_except; [|intros ?]
    | apply keeps_failed_when
    | apply keeps_failed_ret
    | apply keeps_failed_call
    | apply keeps_failed_get
    | apply keeps_failed_modify; intros ? ?; simpl; solve [auto]
    | match goal with
      | |- keeps_failed _ (if ?b then _ else _) => destruct b
      | |- keeps_failed _ (let _ := _ in _) => cbv zeta
      end ].

Section DnsKeeps.
Variable env : Env.
Variables domain expected_ip expected_cname : string.

Lemma dns_resolve_a_keeps : keeps_failed dns_ok (dns_resolve_a env domain).
Proof. unfold dns_resolve_a. keeps. Qed.

Lemma dns_resolve_cname_keeps :
  keeps_failed dns_ok (dns_resolve_cname env domain).
Proof. unfold dns_resolve_cname. keeps. Qed.

Lemma dns_no_records_keeps : keeps_failed dns_ok (dns_no_records domain).
Proof. unfold dns_no_records. keeps. Qed.

Lemma dns_expected_ip_keeps :
  keeps_failed dns_ok (dns_expected_ip expected_ip).
Proof. unfold dns_expected_ip. keeps. Qed.

Lemma dns_expected_cname_keeps :
  keeps_failed dns_ok (dns_expected_cname expected_cname).
Proof. unfold dns_expected_cname. keeps. Qed.

Lemma dns_handler_keeps (e : exn) : keeps_failed dns_ok (dns_handler e).
Proof. unfold dns_handler. keeps. Qed.

End DnsKeeps.

(** C8: [ok] starts true; no step of [dns_checks] (the two lookups, the
    three checks, the handler, and so the whole body with its handler)
    turns a false [ok] back to true; and in every result returned, [ok] is
    false whenever the errors are not empty (and only then). *)
Theorem dns_ok_false_whenever_errors :
  forall env domain expected_ip expected_cname,
    dns_ok dns_init = true
    /\ keeps_failed dns_ok (dns_resolve_a env domain)
    /\ keeps_failed dns_ok (dns_resolve_cname env domain)
    /\ keeps_failed dns_ok (dns_no_records domain)
    /\ keeps_failed dns_ok (dns_expected_ip expected_ip)
    /\ keeps_failed dns_ok (dns_expected_cname expected_cname)
    /\ (forall e, keeps_failed dns_ok (dns_handler e))
    /\ keeps_failed dns_ok
         (try_except (dns_body env domain expected_ip expected_cname)
            dns_handler)
    /\ (forall r,
          dns_checks env domain expected_ip expected_cname = Returns r ->
          (dns_errors r <> [] -> dns_ok r = false)
          /\ (dns_ok r = false -> dns_errors r <> [])).
Proof.
  intros env domain expected_ip expected_cname.
  pose proof (dns_resolve_a_keeps env domain) as Ka.
  pose proof (dns_resolve_cname_keeps env domain) as Kc.
  pose proof (dns_no_records_keeps domain) as Kn.
  pose proof (dns_expected_ip_keeps expected_ip) as Ki.
  pose proof (dns_expected_cname_keeps expected_cname) as Ke.
  pose proof dns_handler_keeps as Kh.
  repeat apply conj; auto.
  - apply keeps_failed_try_except; [|exact Kh].
    unfold dns_body.
    repeat (apply keeps_failed_bind; [assumption|intros _]). assumption.
  - intros r Hr. rewrite dns_checks_report in Hr. injection Hr as <-.
    unfold dns_report; simpl.
    destruct (negb (nonempty (a_records_found env domain))
              && negb (truthy_opt (cname_found env domain)));
      destruct (PyStr.truthy expected_ip
                && negb (contains (a_records_found env domain) expected_ip));
      destruct (PyStr.truthy expected_cname
                && negb (cname_agrees (cname_found env domain) expected_cname));
      simpl; split; intros H; try reflexivity; try discriminate;
      now elim H.
Qed.

(** An expected address that is not among the A records. *)
Lemma dns_ok_false_whenever_errors_witness :
  exists r,
    dns_checks env_good "good.example" "203.0.113.9" "" = Returns r
    /\ dns_errors r = ["Expected IP 203.0.113.9 NOT found in A records."]
    /\ dns_ok r = false.
Proof.
  eexists. split; [vm_compute; reflexivity|]. split; [reflexivity|].
  destruct (dns_ok_false_whenever_errors env_good "good.example"
              "203.0.113.9" "")
    as (_ & _ & _ & _ & _ & _ & _ & _ & Hres).
  apply (Hres _ eq_refl). discriminate.
Defined.

(** ** What leaves a checker *)

(** C9, as stated, fails on both counts: an exception of the HTTP client
    that is no [requests.RequestException] leaves [https_check], and with
    it the route; and a failed A lookup in [dns_checks] is absorbed
    without an error entry, [ok] staying true. *)
Lemma https_check_lets_other_exceptions_through :
  https_check env_http_leak "good.example"
  = Raises (OtherException "label empty or too long")
  /\ index env_http_leak "POST" good_form
     = Raises (OtherException "label empty or too long")
  /\ resolve env_cname "alias.example" "A"
     = Raises (OtherException "The DNS response does not contain an answer")
  /\ exists r,
       dns_checks env_cname "alias.example" "" "" = Returns r
       /\ dns_ok r = true /\ dns_errors r = [].
Proof.
  repeat apply conj; try reflexivity.
  eexists. split; [vm_compute; reflexivity|]. split; reflexivity.
Qed.

(** An exception of the HTTP client outside [requests.RequestException]
    is not caught on line 63. *)
Lemma https_check_propagates (env : Env) (domain m : string) :
  requests_head env (https_url domain) = Raises (OtherException m) ->
  https_check env domain = Raises (OtherException m).
Proof.
  intros E. rewrite https_check_report. unfold https_report. now rewrite E.
Qed.

(** C9 (amended): [dns_checks] and [cert_check] return a result in every
    world: an exception that reaches their handler becomes one more error
    and a false [ok] (a failed A or CNAME lookup is absorbed before that,
    as an empty list or an absent CNAME).  [https_check] returns a result
    when the request answers or raises a [requests.RequestException],
    which becomes an error and a false [ok]; and then the route returns
    as well. *)
Theorem checkers_return_results :
  (forall env domain expected_ip expected_cname,
     exists r, dns_checks env domain expected_ip expected_cname = Returns r)
  /\ (forall e s,
        fst (dns_handler e s) = Returns tt
        /\ dns_ok (snd (dns_handler e s)) = false
        /\ dns_errors (snd (dns_handler e s))
           = append (dns_errors s) (msg_dns_failed e))
  /\ (forall env domain,
        exists r,
          cert_check env domain = Returns r
          /\ forall e,
               getpeercert env domain = Raises e
               \/ (exists cert s,
                     getpeercert env domain = Returns cert
                     /\ notAfter cert = Some s
                     /\ strptime env s not_after_format = Raises e) ->
               cert_ok r = false /\ cert_errors r = [msg_ssl_failed e])
  /\ (forall env domain,
        (forall m, requests_head env (https_url domain)
                   <> Raises (OtherException m)) ->
        exists r,
          https_check env domain = Returns r
          /\ forall m,
               requests_head env (https_url domain)
               = Raises (RequestException m) ->
               https_ok r = false
               /\ https_errors r = [msg_connect_failed (RequestException m)])
  /\ (forall env method form,
        (forall m,
           requests_head env
             (https_url (PyStr.strip (form_get form "domain" "")))
           <> Raises (OtherException m)) ->
        exists data, index env method form = Returns data).
Proof.
  split; [|split; [|split; [|split]]].
  - intros. rewrite dns_checks_report. eauto.
  - intros e s. repeat apply conj; reflexivity.
  - intros env domain. rewrite cert_check_report. eexists. split; [reflexivity|].
    intros e He. unfold cert_report.
    destruct He as [->|(cert & s & -> & -> & ->)]; simpl; auto.
  - intros env domain Hno. rewrite https_check_report. unfold https_report.
    destruct (requests_head env (https_url domain)) as [st|[m|m]].
    + eexists. split; [reflexivity|]. discriminate.
    + eexists. split; [reflexivity|]. intros m' E. injection E as <-. auto.
    + now elim (Hno m).
  - intros env method form Hno. unfold index.
    destruct (String.eqb method "POST"); [|eauto].
    destruct (negb (PyStr.truthy _)); [eauto|].
    rewrite dns_checks_report, cert_check_report, https_check_report.
    unfold https_report. simpl.
    destruct (requests_head env _) as [st|[m|m]]; simpl; eauto.
    now elim (Hno m).
Qed.

(** A refused connection. *)
Lemma checkers_return_results_witness :
  exists r,
    https_check env_down "good.example" = Returns r
    /\ https_ok r = false
    /\ https_errors r = ["curl/requests failed to connect: connection refused"].
Proof.
  destruct (proj1 (proj2 (proj2 (proj2 checkers_return_results)))
              env_down "good.example" ltac:(discriminate))
    as (r & Hr & Herr).
  exists r. split; [exact Hr|].
  apply (Herr "connection refused"). reflexivity.
Defined.

(** * Further properties of the code *)

(** ** More on strings *)

Lemma rstrip_never_ends_with (c : ascii) (s p : string) :
  PyStr.rstrip s c <> p ++ String c "".
Proof.
  revert p; induction s as [|d s IH]; intros p; simpl.
  - destruct p; discriminate.
  - destruct (PyStr.rstrip s c) as [|a r] eqn:Er.
    + destruct (Ascii.eqb_spec d c) as [->|Hdc].
      * destruct p; discriminate.
      * destruct p as [|d' [|e p']]; simpl; try discriminate.
        intros E. injection E as <-. now elim Hdc.
    + destruct p as [|d' p']; simpl; [discriminate|].
      intros E. injection E as _ E. exact (IH p' E).
Qed.

Lemma rstrip_app_char (c : ascii) (s : string) :
  PyStr.rstrip (s ++ String c "") c = PyStr.rstrip s c.
Proof.
  induction s as [|d s IH]; simpl.
  - now rewrite Ascii.eqb_refl.
  - now rewrite IH.
Qed.

Lemma append_empty_r (s : string) : s ++ "" = s.
Proof. induction s as [|c s IH]; simpl; [reflexivity | now rewrite IH]. Qed.

Lemma append_char_assoc (s t : string) (c : ascii) :
  s ++ String c t = (s ++ String c "") ++ t.
Proof. induction s as [|d s IH]; simpl; [reflexivity | now rewrite IH]. Qed.

Lemma rstrip_app_dots (s : string) (n : nat) :
  PyStr.rstrip (s ++ dots n) dot = PyStr.rstrip s dot.
Proof.
  revert s; induction n as [|n IH]; intros s; simpl.
  - now rewrite append_empty_r.
  - rewrite append_char_assoc, IH. apply rstrip_app_char.
Qed.

Lemma rstrip_decompose (s : string) :
  exists n, s = PyStr.rstrip s dot ++ dots n.
Proof.
  induction s as [|d s [n IH]]; simpl.
  - exists 0%nat. reflexivity.
  - destruct (PyStr.rstrip s dot) as [|a r] eqn:Er.
    + destruct (Ascii.eqb_spec d dot) as [->|Hd].
      * exists (S n). simpl. now rewrite IH at 1.
      * exists n. simpl. now rewrite IH at 1.
    + exists n. simpl. now rewrite IH at 1.
Qed.

Lemma startswith_spec (s p : string) :
  PyStr.startswith s p = true <-> exists t, s = p ++ t.
Proof.
  revert s; induction p as [|c p IH]; intros s; simpl.
  - split; [intros _; exists s; reflexivity | intros _; now destruct s].
  - destruct s as [|d s].
    + split; [discriminate|]. intros [t E]. discriminate.
    + simpl. rewrite andb_true_iff, Ascii.eqb_eq, IH. split.
      * intros [-> [t ->]]. eauto.
      * intros [t E]. injection E as -> ->. eauto.
Qed.

Lemma append_assoc (a b c : string) : (a ++ b) ++ c = a ++ (b ++ c).
Proof. induction a as [|x a IH]; simpl; [reflexivity | now rewrite IH]. Qed.

(** ** White space *)

Example strip_unicode_space :
  PyStr.strip (PyStr.bytes [226; 128; 131; 32] ++ "good.example"
               ++ PyStr.bytes [9; 227; 128; 128; 194; 160])
  = "good.example".
Proof. reflexivity. Qed.

Example strip_keeps_inner_space :
  PyStr.strip (" a" ++ PyStr.bytes [226; 128; 131] ++ "b ")
  = "a" ++ PyStr.bytes [226; 128; 131] ++ "b".
Proof. reflexivity. Qed.

Example strip_keeps_other_characters :
  PyStr.strip (PyStr.bytes [195; 169; 194; 160]) = PyStr.bytes [195; 169].
Proof. reflexivity. Qed.

Lemma white_space_nonempty (w : string) :
  In w PyStr.white_space -> (0 < String.length w)%nat.
Proof.
  intros H.
  assert (F : Forall (fun w => (0 < String.length w)%nat) PyStr.white_space)
    by (repeat constructor).
  rewrite Forall_forall in F. now apply F.
Qed.

Lemma white_space_member (w : string) :
  existsb (String.eqb w) PyStr.white_space = true -> In w PyStr.white_space.
Proof.
  intros H. apply existsb_exists in H. destruct H as (x & Hx & E).
  apply String.eqb_eq in E. now subst.
Qed.

Lemma strip_one_some (ws : list string) (s rest : string) :
  PyStr.strip_one ws s = Some rest -> exists w, In w ws /\ s = w ++ rest.
Proof.
  induction ws as [|w ws IH]; simpl; [discriminate|].
  destruct (PyStr.startswith s w) eqn:Es.
  - intros E. injection E as <-. apply startswith_spec in Es.
    destruct Es as [t ->]. exists w. split; [now left|].
    now rewrite drop_app_length.
  - intros E. destruct (IH E) as (w' & Hin & Hs). exists w'.
    split; [now right | exact Hs].
Qed.

Lemma strip_one_none (ws : list string) (s w : string) :
  PyStr.strip_one ws s = None -> In w ws -> PyStr.startswith s w = false.
Proof.
  induction ws as [|w' ws IH]; simpl; [intros _ []|].
  destruct (PyStr.startswith s w') eqn:Es; [discriminate|].
  intros E [<-|Hin]; [exact Es | now apply IH].
Qed.

Lemma startswith_refl_app (w s : string) : PyStr.startswith (w ++ s) w = true.
Proof. apply startswith_spec. eauto. Qed.

Lemma common_prefix (w w' s t : string) :
  w ++ s = w' ++ t ->
  PyStr.startswith w w' = true \/ PyStr.startswith w' w = true.
Proof.
  revert w'; induction w as [|c w IH]; intros w' E.
  - right. now destruct w'.
  - destruct w' as [|c' w']; [left; reflexivity|].
    simpl in E. injection E as <- E. simpl. rewrite Ascii.eqb_refl. simpl.
    exact (IH w' E).
Qed.

(** No white-space character begins with another one. *)
Lemma white_space_prefix_free (w w' : string) :
  In w PyStr.white_space -> In w' PyStr.white_space ->
  PyStr.startswith w w' = true -> w = w'.
Proof.
  intros Hw Hw' Hs.
  assert (F : forallb (fun a => forallb (fun b =>
                 String.eqb a b || negb (PyStr.startswith a b))
                 PyStr.white_space) PyStr.white_space = true)
    by (vm_compute; reflexivity).
  rewrite forallb_forall in F. specialize (F w Hw).
  rewrite forallb_forall in F. specialize (F w' Hw').
  rewrite Hs in F. simpl in F. rewrite orb_false_r in F.
  now apply String.eqb_eq.
Qed.

(** One white-space character in front is found and removed. *)
Lemma strip_one_prefix_free (ws : list string) (w s : string) :
  (forall a b, In a ws -> In b ws -> PyStr.startswith a b = true -> a = b) ->
  In w ws -> PyStr.strip_one ws (w ++ s) = Some s.
Proof.
  induction ws as [|w' ws IH]; intros Hfree Hw; [destruct Hw|]. simpl.
  destruct (PyStr.startswith (w ++ s) w') eqn:Es.
  - apply startswith_spec in Es. destruct Es as [t Et].
    assert (E : w = w').
    { destruct (common_prefix w w' s t Et) as [H|H].
      - apply Hfree; [exact Hw | now left | exact H].
      - symmetry. apply Hfree; [now left | exact Hw | exact H]. }
    subst w'. now rewrite drop_app_length.
  - destruct Hw as [->|Hw]; [now rewrite startswith_refl_app in Es|].
    apply IH; [|exact Hw]. intros a b Ha Hb. apply Hfree; now right.
Qed.

Lemma strip_one_white_space (w s : string) :
  In w PyStr.white_space ->
  PyStr.strip_one PyStr.white_space (w ++ s) = Some s.
Proof. apply strip_one_prefix_free. exact white_space_prefix_free. Qed.

Lemma lstrip_fuel_enough (n m : nat) (s : string) :
  (String.length s <= n)%nat -> (String.length s <= m)%nat ->
  PyStr.lstrip_fuel n s = PyStr.lstrip_fuel m s.
Proof.
  revert m s; induction n as [|n IH]; intros m s Hn Hm.
  - destruct s; [|simpl in Hn; lia]. now destruct m.
  - destruct m as [|m].
    + destruct s; [reflexivity | simpl in Hm; lia].
    + cbn [PyStr.lstrip_fuel].
      destruct (PyStr.strip_one PyStr.white_space s) as [rest|] eqn:E;
        [|reflexivity].
      destruct (strip_one_some _ _ _ E) as (w & Hw & ->).
      pose proof (white_space_nonempty w Hw). rewrite length_app in Hn, Hm.
      apply IH; lia.
Qed.

Lemma lstrip_ws_white_space (w s : string) :
  In w PyStr.white_space -> PyStr.lstrip_ws (w ++ s) = PyStr.lstrip_ws s.
Proof.
  intros Hw. unfold PyStr.lstrip_ws.
  pose proof (white_space_nonempty w Hw) as Hl.
  rewrite length_app.
  destruct (String.length w + String.length s)%nat as [|n] eqn:En; [lia|].
  cbn [PyStr.lstrip_fuel]. rewrite (strip_one_white_space w s Hw).
  apply lstrip_fuel_enough; lia.
Qed.

Lemma lstrip_ws_empty : PyStr.lstrip_ws "" = "".
Proof. reflexivity. Qed.

Lemma lstrip_ws_all_space (s : string) :
  all_space s -> PyStr.lstrip_ws s = "".
Proof.
  intros (l & Hl & ->). induction Hl as [|w l Hw Hl IH]; simpl.
  - reflexivity.
  - now rewrite lstrip_ws_white_space.
Qed.

Lemma strip_all_space (s : string) : all_space s -> PyStr.strip s = "".
Proof. intros H. unfold PyStr.strip. now rewrite lstrip_ws_all_space. Qed.

Lemma lstrip_fuel_no_lead (n : nat) (s : string) :
  (String.length s <= n)%nat ->
  PyStr.strip_one PyStr.white_space (PyStr.lstrip_fuel n s) = None.
Proof.
  revert s; induction n as [|n IH]; intros s Hn.
  - destruct s; [reflexivity | simpl in Hn; lia].
  - cbn [PyStr.lstrip_fuel].
    destruct (PyStr.strip_one PyStr.white_space s) as [rest|] eqn:E;
      [|exact E].
    destruct (strip_one_some _ _ _ E) as (w & Hw & ->).
    pose proof (white_space_nonempty w Hw). rewrite length_app in Hn.
    apply IH; lia.
Qed.

Lemma lstrip_ws_no_lead (s w : string) :
  In w PyStr.white_space -> PyStr.startswith (PyStr.lstrip_ws s) w = false.
Proof.
  intros Hw. apply (strip_one_none PyStr.white_space); [|exact Hw].
  apply lstrip_fuel_no_lead. lia.
Qed.

(** What [rstrip_ws] cuts off is white space only. *)
Lemma rstrip_ws_decompose (s : string) :
  exists rest, s = PyStr.rstrip_ws s ++ rest /\ PyStr.lstrip_ws rest = "".
Proof.
  induction s as [|d s (rest & Hs & Hrest)].
  - exists "". split; reflexivity.
  - cbn [PyStr.rstrip_ws].
    destruct (PyStr.lstrip_ws (String d s)) eqn:E.
    + exists (String d s). split; [reflexivity | exact E].
    + exists rest. split; [|exact Hrest]. simpl. now rewrite <- Hs.
Qed.

Lemma rstrip_ws_no_trail (s p w : string) :
  In w PyStr.white_space -> PyStr.rstrip_ws s <> p ++ w.
Proof.
  intros Hw. pose proof (white_space_nonempty w Hw) as Hl.
  revert p; induction s as [|d s IH]; intros p.
  - simpl. intros E. apply (f_equal String.length) in E.
    rewrite length_app in E. simpl in E. lia.
  - cbn [PyStr.rstrip_ws].
    destruct (PyStr.lstrip_ws (String d s)) eqn:El.
    + intros E. apply (f_equal String.length) in E.
      rewrite length_app in E. simpl in E. lia.
    + destruct p as [|x p]; simpl.
      * intros E.
        destruct (rstrip_ws_decompose s) as (rest & Hs & Hrest).
        assert (Hall : String d s = w ++ rest).
        { rewrite <- E. simpl. now rewrite <- Hs. }
        rewrite Hall, lstrip_ws_white_space, Hrest in El by exact Hw.
        discriminate.
      * intros E. injection E as _ E. exact (IH p E).
Qed.

(** A stripped value neither begins nor ends with a white-space
    character. *)
Lemma strip_shape (s w : string) :
  In w PyStr.white_space ->
  PyStr.startswith (PyStr.strip s) w = false
  /\ PyStr.endswith (PyStr.strip s) w = false.
Proof.
  intros Hw. unfold PyStr.strip. split.
  - destruct (PyStr.startswith _ w) eqn:E; [|reflexivity].
    apply startswith_spec in E. destruct E as [t E].
    destruct (rstrip_ws_decompose (PyStr.lstrip_ws s)) as (rest & Hs & _).
    rewrite E, append_assoc in Hs.
    assert (Hsw : PyStr.startswith (PyStr.lstrip_ws s) w = true)
      by (apply startswith_spec; eauto).
    now rewrite lstrip_ws_no_lead in Hsw.
  - destruct (PyStr.endswith _ w) eqn:E; [|reflexivity].
    apply endswith_spec in E. destruct E as [p E].
    now elim (rstrip_ws_no_trail (PyStr.lstrip_ws s) p w Hw).
Qed.

(** ** More on the coverage rule *)

(** X1: for a SAN that starts with star-dot and differs from the domain,
    [covers] holds exactly when the domain is the SAN's suffix (the SAN
    less its star) with something in front that contains a dot. *)
Theorem covers_wildcard_iff_dotted_prefix :
  forall d san,
    PyStr.startswith san "*." = true ->
    san <> d ->
    (covers d san = true
     <-> exists p, d = p ++ PyStr.slice_from_1 san
                   /\ (0 < PyStr.count p dot)%nat).
Proof.
  intros d san Hsw Hne. rewrite covers_unfold. unfold wildcard_rule.
  rewrite !split_length. split.
  - intros [E|(_ & [p ->] & Hlt)]; [contradiction|].
    exists p. split; [reflexivity|]. rewrite count_app in Hlt. lia.
  - intros (p & -> & Hp). right. split; [exact Hsw|]. split; [eauto|].
    rewrite count_app. lia.
Qed.

(** Two labels in front of the suffix are covered, one is not. *)
Lemma covers_wildcard_iff_dotted_prefix_witness :
  covers "a.b.example.com" "*.example.com" = true.
Proof.
  apply (covers_wildcard_iff_dotted_prefix "a.b.example.com" "*.example.com");
    [reflexivity | discriminate |].
  exists "a.b". split; [reflexivity | simpl; lia].
Defined.

(** X2: a wildcard SAN never covers the name under the star itself. *)
Theorem covers_wildcard_not_apex :
  forall s, covers s ("*." ++ s) = false.
Proof.
  intros s. destruct (covers s ("*." ++ s)) eqn:Ec; [exfalso|reflexivity].
  apply covers_unfold in Ec. destruct Ec as [E|(_ & [p E] & _)];
    apply (f_equal String.length) in E; simpl in E;
    try rewrite length_app in E; simpl in E; lia.
Qed.

(** ** More on the DNS checker *)

Lemma contains_In (l : list string) (x : string) :
  contains l x = true <-> In x l.
Proof.
  unfold contains. rewrite existsb_exists. split.
  - intros (y & Hy & E). apply String.eqb_eq in E. now subst.
  - intros H. exists x. split; [exact H | apply String.eqb_refl].
Qed.

Lemma in_if_singleton {A : Type} (b : bool) (x y : A) :
  In y (if b then [x] else []) <-> b = true /\ y = x.
Proof.
  destruct b; simpl; split.
  - intros [E|[]]. auto.
  - intros [_ E]. auto.
  - intros [].
  - intros [E _]. discriminate.
Qed.

Section DnsReport.
Variable env : Env.
Variables domain expected_ip expected_cname : string.

Let a := a_records_found env domain.
Let c := cname_found env domain.

Lemma dns_report_errors_in (e : string) :
  In e (dns_errors (dns_report env domain expected_ip expected_cname))
  <-> (negb (nonempty a) && negb (truthy_opt c) = true
       /\ e = msg_no_records domain)
      \/ (PyStr.truthy expected_ip && negb (contains a expected_ip) = true
          /\ e = msg_ip_missing expected_ip)
      \/ (PyStr.truthy expected_cname && negb (cname_agrees c expected_cname)
          = true
          /\ e = msg_cname_mismatch (found_text c)).
Proof.
  unfold dns_report. cbn [dns_errors]. fold a c.
  rewrite !in_app_iff, !in_if_singleton; tauto.
Qed.

Lemma dns_report_notes_in (n : string) :
  In n (dns_notes (dns_report env domain expected_ip expected_cname))
  <-> (PyStr.truthy expected_ip && contains a expected_ip = true
       /\ n = msg_ip_present expected_ip)
      \/ (PyStr.truthy expected_cname && cname_agrees c expected_cname = true
          /\ n = msg_cname_match expected_cname).
Proof.
  unfold dns_report. cbn [dns_notes]. fold a c.
  rewrite !in_app_iff, !in_if_singleton; tauto.
Qed.

Lemma dns_report_ok :
  dns_ok (dns_report env domain expected_ip expected_cname)
  = negb (negb (nonempty a) && negb (truthy_opt c))
    && negb (PyStr.truthy expected_ip && negb (contains a expected_ip))
    && negb (PyStr.truthy expected_cname
             && negb (cname_agrees c expected_cname)).
Proof. reflexivity. Qed.

End DnsReport.

Lemma truthy_true_iff (s : string) : PyStr.truthy s = true <-> s <> "".
Proof.
  destruct s; simpl; split; intros H; try discriminate; auto;
    try now elim H.
Qed.

Lemma truthy_opt_true_iff (o : option string) :
  truthy_opt o = true <-> exists s, o = Some s /\ s <> "".
Proof.
  destruct o as [s|]; simpl.
  - rewrite truthy_true_iff. split; [eauto|]. intros (s' & E & H).
    now injection E as ->.
  - split; [discriminate|]. intros (s' & E & _). discriminate.
Qed.

Lemma nonempty_true_iff {A : Type} (l : list A) :
  nonempty l = true <-> l <> [].
Proof.
  destruct l; simpl; split; intros H; try discriminate; auto;
    try now elim H.
Qed.

(** X3: with a non-empty expected address, an address that is among the A
    records adds the note "Expected IP ... present in A records." and no
    error about the address; one that is not adds the error "Expected IP
    ... NOT found in A records.", makes [ok] false and adds no such
    note. *)
Theorem dns_expected_ip_checked :
  forall env domain expected_ip expected_cname r,
    expected_ip <> "" ->
    dns_checks env domain expected_ip expected_cname = Returns r ->
    (In expected_ip (dns_a_records r) ->
     In ("Expected IP " ++ expected_ip ++ " present in A records.")
       (dns_notes r)
     /\ ~ In ("Expected IP " ++ expected_ip ++ " NOT found in A records.")
          (dns_errors r))
    /\ (~ In expected_ip (dns_a_records r) ->
        In ("Expected IP " ++ expected_ip ++ " NOT found in A records.")
          (dns_errors r)
        /\ dns_ok r = false
        /\ ~ In ("Expected IP " ++ expected_ip ++ " present in A records.")
             (dns_notes r)).
Proof.
  intros env domain expected_ip expected_cname r Hne Hr.
  rewrite dns_checks_report in Hr. injection Hr as <-.
  fold (msg_ip_present expected_ip) (msg_ip_missing expected_ip).
  rewrite dns_report_errors_in, dns_report_notes_in, dns_report_ok.
  cbn [dns_a_records dns_report].
  apply truthy_true_iff in Hne. rewrite Hne. cbn [andb].
  split.
  - intros Hin. apply contains_In in Hin. rewrite Hin. cbn [negb]. split.
    + left. auto.
    + intros [[_ E]|[[E _]|[_ E]]]; discriminate.
  - intros Hnot.
    assert (Hc : contains (a_records_found env domain) expected_ip = false).
    { destruct (contains _ _) eqn:Ec; [|reflexivity].
      apply contains_In in Ec. contradiction. }
    rewrite Hc. cbn [negb]. repeat apply conj.
    + right. left. auto.
    + now rewrite andb_false_r.
    + intros [[E _]|[_ E]]; discriminate.
Qed.

(** An address among two A records, and one that is missing. *)
Lemma dns_expected_ip_checked_witness :
  exists r,
    dns_checks env_two_addresses "good.example" "192.0.2.11" "" = Returns r
    /\ In "Expected IP 192.0.2.11 present in A records." (dns_notes r)
    /\ dns_ok r = true.
Proof.
  eexists. split; [vm_compute; reflexivity|]. split; [|reflexivity].
  apply (proj1 (dns_expected_ip_checked env_two_addresses "good.example"
                  "192.0.2.11" "" _ ltac:(discriminate) eq_refl)).
  simpl. auto.
Defined.

(** X4: the outer handler of [dns_checks] is never reached: from every
    state the body ends normally, so every error of a result is one of
    the three texts of lines 27, 35 and 46, there are at most three, and
    none is the handler's "DNS check failed: ...". *)
Theorem dns_handler_unreachable :
  forall env domain expected_ip expected_cname,
    (forall s,
       fst (dns_body env domain expected_ip expected_cname s) = Returns tt)
    /\ forall r,
         dns_checks env domain expected_ip expected_cname = Returns r ->
         (forall e, In e (dns_errors r) ->
            (e = "No A or CNAME records found for " ++ domain
             \/ e = "Expected IP " ++ expected_ip ++ " NOT found in A records."
             \/ e = "CNAME does not match expected. Found: '"
                    ++ found_text (dns_cname r) ++ "'")
            /\ PyStr.startswith e "DNS check failed: " = false)
         /\ (List.length (dns_errors r) <= 3)%nat.
Proof.
  intros env domain expected_ip expected_cname. split.
  - intros s.
    destruct (dns_body_returns env domain expected_ip expected_cname s)
      as [s' ->]. reflexivity.
  - intros r Hr. rewrite dns_checks_report in Hr. injection Hr as <-. split.
    + intros e He. apply dns_report_errors_in in He.
      destruct He as [[_ ->]|[[_ ->]|[_ ->]]]; split; auto.
    + unfold dns_report. cbn [dns_errors]. rewrite !List.length_app.
      repeat match goal with
             | |- context [if ?b then _ else _] => destruct b
             end; simpl; lia.
Qed.

(** X5: [dns_checks] answers [ok] exactly when a record was found (an A
    record or a non-empty CNAME), the expected address, if given, is among
    the A records, and the expected CNAME, if given, agrees with the found
    one once the trailing dots of both are stripped. *)
Theorem dns_ok_true_iff :
  forall env domain expected_ip expected_cname r,
    dns_checks env domain expected_ip expected_cname = Returns r ->
    (dns_ok r = true
     <-> (dns_a_records r <> []
          \/ exists c, dns_cname r = Some c /\ c <> "")
         /\ (expected_ip = "" \/ In expected_ip (dns_a_records r))
         /\ (expected_cname = ""
             \/ PyStr.rstrip (or_empty (dns_cname r)) dot
                = PyStr.rstrip expected_cname dot)).
Proof.
  intros env domain expected_ip expected_cname r Hr.
  rewrite dns_checks_report in Hr. injection Hr as <-.
  rewrite dns_report_ok. cbn [dns_a_records dns_cname dns_report].
  rewrite !andb_true_iff, !negb_true_iff, !andb_false_iff, !negb_false_iff.
  rewrite nonempty_true_iff, truthy_opt_true_iff, contains_In.
  unfold cname_agrees. rewrite String.eqb_eq.
  rewrite <- !not_true_iff_false, !truthy_true_iff.
  assert (Hdec : forall s : string, ~ s <> "" <-> s = "").
  { intros s. destruct (string_dec s ""); tauto. }
  rewrite !Hdec. tauto.
Qed.

(** A CNAME found, and expected with three trailing dots. *)
Lemma dns_ok_true_iff_witness :
  exists r,
    dns_checks env_cname "alias.example" "" "foo.example.com..." = Returns r
    /\ dns_ok r = true.
Proof.
  eexists. split; [vm_compute; reflexivity|].
  apply (dns_ok_true_iff env_cname "alias.example" "" "foo.example.com..." _
           eq_refl).
  split; [right; exists "foo.example.com"; split; [reflexivity|discriminate]|].
  split; [left; reflexivity | right; reflexivity].
Defined.

(** X6: the CNAME that [dns_checks] reports is the target of the first
    CNAME answer without its trailing dots: the target is the reported
    name followed by dots only, and the reported name does not end with a
    dot. *)
Theorem dns_cname_is_stripped_target :
  forall env domain expected_ip expected_cname r c,
    dns_checks env domain expected_ip expected_cname = Returns r ->
    dns_cname r = Some c ->
    PyStr.endswith c "." = false
    /\ exists target rest n,
         resolve env domain "CNAME" = Returns (target :: rest)
         /\ target = c ++ dots n.
Proof.
  intros env domain expected_ip expected_cname r c Hr Hc.
  rewrite dns_checks_report in Hr. injection Hr as <-.
  unfold dns_report in Hc. cbn [dns_cname] in Hc. unfold cname_found in Hc.
  destruct (resolve env domain "CNAME") as [[|target rest]|e];
    try discriminate.
  injection Hc as <-. split.
  - destruct (PyStr.endswith _ ".") eqn:E; [|reflexivity].
    apply endswith_spec in E. destruct E as [p E].
    now elim (rstrip_never_ends_with dot target p).
  - destruct (rstrip_decompose target) as [n Hn]. eauto.
Qed.

(** A target written with its root dot. *)
Lemma dns_cname_is_stripped_target_witness :
  exists r,
    dns_checks env_cname "alias.example" "" "" = Returns r
    /\ dns_cname r = Some "foo.example.com"
    /\ PyStr.endswith "foo.example.com" "." = false.
Proof.
  eexists. split; [vm_compute; reflexivity|]. split; [reflexivity|].
  apply (dns_cname_is_stripped_target env_cname "alias.example" "" "" _
           "foo.example.com" eq_refl eq_refl).
Defined.

(** X7: trailing dots on a non-empty expected CNAME change nothing but
    the wording of the note: the verdict, the errors and the records are
    the same with and without them. *)
Theorem dns_expected_cname_trailing_dots :
  forall env domain expected_ip expected_cname n r r',
    expected_cname <> "" ->
    dns_checks env domain expected_ip expected_cname = Returns r ->
    dns_checks env domain expected_ip (expected_cname ++ dots n)
    = Returns r' ->
    dns_ok r' = dns_ok r
    /\ dns_errors r' = dns_errors r
    /\ dns_a_records r' = dns_a_records r
    /\ dns_cname r' = dns_cname r
    /\ List.length (dns_notes r') = List.length (dns_notes r).
Proof.
  intros env domain expected_ip expected_cname n r r' Hne Hr Hr'.
  rewrite dns_checks_report in Hr, Hr'.
  injection Hr as <-. injection Hr' as <-.
  assert (Ht : PyStr.truthy (expected_cname ++ dots n)
               = PyStr.truthy expected_cname)
    by (destruct expected_cname; [now elim Hne | reflexivity]).
  assert (Ha : forall c, cname_agrees c (expected_cname ++ dots n)
                         = cname_agrees c expected_cname)
    by (intros c; unfold cname_agrees; now rewrite rstrip_app_dots).
  unfold dns_report. simpl. rewrite Ht, Ha. repeat apply conj; try reflexivity.
  rewrite !List.length_app.
  destruct (_ && cname_agrees _ _); reflexivity.
Qed.

(** Three dots more on the expected name. *)
Lemma dns_expected_cname_trailing_dots_witness :
  exists r r',
    dns_checks env_cname "alias.example" "" "foo.example.com" = Returns r
    /\ dns_checks env_cname "alias.example" "" "foo.example.com..."
       = Returns r'
    /\ dns_ok r' = dns_ok r /\ dns_errors r' = dns_errors r.
Proof.
  eexists. eexists. split; [vm_compute; reflexivity|].
  split; [vm_compute; reflexivity|].
  destruct (dns_expected_cname_trailing_dots env_cname "alias.example" ""
              "foo.example.com" 3 _ _ ltac:(discriminate) eq_refl eq_refl)
    as (Hok & Herr & _).
  split; [exact Hok | exact Herr].
Defined.

(** X8: a lookup that fails is absorbed: whatever is expected, when the A
    lookup raises, the A records are empty, and when the CNAME lookup
    raises or answers with nothing, the CNAME is absent; with nothing
    expected, the check still passes without error or note as soon as the
    other lookup found an A record or a CNAME target that is not made of
    dots only. *)
Theorem dns_failed_lookup_absorbed :
  (forall env domain expected_ip expected_cname r,
     dns_checks env domain expected_ip expected_cname = Returns r ->
     (forall e, resolve env domain "A" = Raises e -> dns_a_records r = [])
     /\ (forall e,
           resolve env domain "CNAME" = Raises e
           \/ resolve env domain "CNAME" = Returns [] ->
           dns_cname r = None))
  /\ (forall env domain r,
        dns_checks env domain "" "" = Returns r ->
        (forall e target rest,
           resolve env domain "A" = Raises e ->
           resolve env domain "CNAME" = Returns (target :: rest) ->
           PyStr.rstrip target dot <> "" ->
           r = {| dns_ok := true; dns_a_records := [];
                  dns_cname := Some (PyStr.rstrip target dot);
                  dns_errors := []; dns_notes := [] |})
        /\ (forall e address rest,
              resolve env domain "CNAME" = Raises e ->
              resolve env domain "A" = Returns (address :: rest) ->
              r = {| dns_ok := true; dns_a_records := address :: rest;
                     dns_cname := None; dns_errors := [];
                     dns_notes := [] |})).
Proof.
  split.
  - intros env domain expected_ip expected_cname r Hr.
    rewrite dns_checks_report in Hr. injection Hr as <-.
    unfold dns_report, a_records_found, cname_found.
    cbn [dns_a_records dns_cname]. split.
    + intros e ->. reflexivity.
    + intros e [-> | ->]; reflexivity.
  - intros env domain r Hr. rewrite dns_checks_report in Hr.
    injection Hr as <-. unfold dns_report, a_records_found, cname_found.
    split.
    + intros e target rest -> -> Hne. simpl.
      destruct (PyStr.rstrip target dot); [now elim Hne | reflexivity].
    + intros e address rest -> ->. reflexivity.
Qed.

(** Only a CNAME answers, and an address is expected. *)
Lemma dns_failed_lookup_absorbed_witness :
  exists r,
    dns_checks env_cname "alias.example" "192.0.2.10" "" = Returns r
    /\ dns_a_records r = []
    /\ dns_errors r = ["Expected IP 192.0.2.10 NOT found in A records."].
Proof.
  eexists. split; [vm_compute; reflexivity|].
  destruct (proj1 dns_failed_lookup_absorbed env_cname "alias.example"
              "192.0.2.10" "" _ eq_refl) as (Ha & _).
  split; [|reflexivity].
  apply (Ha (OtherException "The DNS response does not contain an answer")).
  reflexivity.
Defined.

(** ** More on the HTTPS checker *)

(** X9: a request answered with a status below 400 (redirects included)
    gives [ok] true, the status and no error. *)
Theorem https_status_below_400 :
  forall env domain status_code,
    requests_head env ("https://" ++ domain) = Returns status_code ->
    (status_code < 400)%Z ->
    https_check env domain
    = Returns {| https_ok := true; https_status := Some status_code;
                 https_errors := [] |}.
Proof.
  intros env domain st Hh Hlt. rewrite https_check_report.
  unfold https_report. fold (https_url domain) in Hh. rewrite Hh.
  assert (E : (400 <=? st)%Z = false) by (apply Z.leb_gt; exact Hlt).
  now rewrite E.
Qed.

(** A redirect that is not followed further. *)
Lemma https_status_below_400_witness :
  https_check env_two_addresses "good.example"
  = Returns {| https_ok := true; https_status := Some 301%Z;
               https_errors := [] |}.
Proof.
  apply (https_status_below_400 env_two_addresses "good.example" 301%Z);
    [reflexivity | lia].
Defined.

(** X10: in every result that [https_check] returns, [ok] is true exactly
    when there is no error, there is at most one error, and the status is
    absent exactly when the request raised a [requests.RequestException];
    a status that is present is the one the request returned. *)
Theorem https_result_invariants :
  forall env domain r,
    https_check env domain = Returns r ->
    (https_ok r = true <-> https_errors r = [])
    /\ (List.length (https_errors r) <= 1)%nat
    /\ (https_status r = None
        <-> exists m, requests_head env ("https://" ++ domain)
                      = Raises (RequestException m))
    /\ (forall st, https_status r = Some st
                   <-> requests_head env ("https://" ++ domain) = Returns st).
Proof.
  intros env domain r. rewrite https_check_report. unfold https_report.
  fold (https_url domain).
  destruct (requests_head env (https_url domain)) as [st|[m|m]];
    [| |discriminate]; intros H; injection H as <-; simpl.
  - destruct (400 <=? st)%Z; simpl; repeat apply conj;
      try discriminate; try reflexivity; try lia;
      try (intros [m E]; discriminate);
      intros st'; split; intros E; injection E as <-; reflexivity.
  - repeat apply conj; try discriminate; try reflexivity; try lia; eauto.
    intros st; split; discriminate.
Qed.

(** A server that answers 404. *)
Lemma https_result_invariants_witness :
  exists r,
    https_check (env_of true false true) "good.example" = Returns r
    /\ (https_ok r = true <-> https_errors r = []).
Proof.
  eexists. split; [vm_compute; reflexivity|].
  apply (https_result_invariants (env_of true false true) "good.example").
  reflexivity.
Defined.

(** ** More on the certificate checker *)

Lemma cert_report_parsed (env : Env) (domain : string) (cert : Cert)
  (s : string) (dt : Z) :
  getpeercert env domain = Returns cert ->
  notAfter cert = Some s ->
  strptime env s not_after_format = Returns dt ->
  cert_report env domain
  = let days_left := timedelta_days (dt - utcnow env) in
    let covered := existsb (covers domain) (cert_names cert) in
    {| cert_ok := negb (days_left <? 0)%Z && covered;
       cert_not_after := Some s;
       cert_days_left := Some days_left;
       cert_sans := cert_names cert;
       cert_covers_domain := covered;
       cert_errors :=
         ((if (days_left <? 0)%Z then [msg_expired] else [])
          ++ (if covered then [] else [msg_not_covered domain]))%list;
       cert_warnings := [] |}.
Proof. intros Hc Hs Hd. unfold cert_report. now rewrite Hc, Hs, Hd. Qed.

Lemma cert_report_sans (env : Env) (domain : string) (cert : Cert) :
  getpeercert env domain = Returns cert ->
  (forall s, notAfter cert = Some s ->
     exists dt, strptime env s not_after_format = Returns dt) ->
  cert_sans (cert_report env domain) = cert_names cert
  /\ cert_covers_domain (cert_report env domain)
     = existsb (covers domain) (cert_names cert).
Proof.
  intros Hc Hp. unfold cert_report. rewrite Hc.
  destruct (notAfter cert) as [s|]; [|split; reflexivity].
  destruct (Hp s eq_refl) as [dt ->]. split; reflexivity.
Qed.

Lemma dns_names_In (san : list (string * string)) (v : string) :
  In v (dns_names san) <-> In ("DNS", v) san.
Proof.
  unfold dns_names. rewrite in_map_iff. split.
  - intros ([k v'] & E & Hin). simpl in E. subst v'.
    apply filter_In in Hin. destruct Hin as [Hin Hk]. simpl in Hk.
    apply String.eqb_eq in Hk. now subst k.
  - intros Hin. exists ("DNS", v). split; [reflexivity|].
    apply filter_In. split; [exact Hin | reflexivity].
Qed.

Lemma timedelta_days_negative_iff (delta : Z) :
  (timedelta_days delta < 0 <-> delta < 0)%Z.
Proof.
  pose proof (timedelta_days_floor delta) as H. unfold us_per_day in H. lia.
Qed.

(** X11: when the certificate lists at least one DNS name among its
    subject alternative names, the reported SANs are exactly the values of
    the DNS entries, other kinds of entry are dropped and the subject is
    not consulted. *)
Theorem cert_sans_are_dns_entries :
  forall env domain r cert san,
    cert_check env domain = Returns r ->
    getpeercert env domain = Returns cert ->
    (forall s, notAfter cert = Some s ->
       exists dt, strptime env s not_after_format = Returns dt) ->
    subjectAltName cert = Some san ->
    (exists v, In ("DNS", v) san) ->
    cert_sans r = map snd (filter (fun kv => String.eqb (fst kv) "DNS") san)
    /\ forall v, In v (cert_sans r) <-> In ("DNS", v) san.
Proof.
  intros env domain r cert san Hr Hc Hp Hsan [v Hv].
  rewrite cert_check_report in Hr. injection Hr as <-.
  destruct (cert_report_sans env domain cert Hc Hp) as [-> _].
  assert (E : cert_names cert = dns_names san).
  { unfold cert_names. rewrite Hsan.
    apply dns_names_In in Hv.
    destruct (dns_names san); [destruct Hv | reflexivity]. }
  rewrite E. split; [reflexivity|]. intros v'. apply dns_names_In.
Qed.

(** The sample certificate has two DNS names. *)
Lemma cert_sans_are_dns_entries_witness :
  exists r,
    cert_check env_good "good.example" = Returns r
    /\ forall v, In v (cert_sans r)
                 <-> In ("DNS", v)
                       [("DNS", "good.example"); ("DNS", "*.good.example")].
Proof.
  eexists. split; [vm_compute; reflexivity|].
  apply (cert_sans_are_dns_entries env_good "good.example" _ sample_cert
           _ eq_refl eq_refl).
  - intros s _. exists sample_expiry. reflexivity.
  - reflexivity.
  - exists "good.example". simpl. auto.
Defined.

Lemma common_name_fallback_none (subj : list (list (string * string)))
  (sans : list string) :
  (forall rdn, In rdn subj -> first_common_name rdn = None) ->
  common_name_fallback subj sans = sans.
Proof.
  unfold common_name_fallback. revert sans.
  induction subj as [|rdn subj IH]; intros sans H; simpl; [reflexivity|].
  rewrite (H rdn) by (left; reflexivity).
  apply IH. intros t Ht. apply H. now right.
Qed.

Lemma common_name_fallback_last
  (before after : list (list (string * string)))
  (rdn : list (string * string)) (v : string) (sans : list string) :
  first_common_name rdn = Some v ->
  (forall t, In t after -> first_common_name t = None) ->
  common_name_fallback (before ++ rdn :: after)%list sans = [v].
Proof.
  intros Hv Hafter. unfold common_name_fallback.
  rewrite fold_left_app. simpl. rewrite Hv.
  apply (common_name_fallback_none after [v] Hafter).
Qed.

(** X12: when the certificate has no DNS name among its subject
    alternative names, the reported SANs are the one common name of the
    last relative distinguished name of the subject that has one (the
    first within it), and are empty, with the domain not covered, when the
    subject is missing or has no common name. *)
Theorem cert_sans_fall_back_to_common_name :
  forall env domain r cert,
    cert_check env domain = Returns r ->
    getpeercert env domain = Returns cert ->
    (forall s, notAfter cert = Some s ->
       exists dt, strptime env s not_after_format = Returns dt) ->
    (subjectAltName cert = None
     \/ exists san, subjectAltName cert = Some san
                    /\ forall v, ~ In ("DNS", v) san) ->
    (forall before rdn after v,
       subject cert = Some (before ++ rdn :: after)%list ->
       first_common_name rdn = Some v ->
       (forall t, In t after -> first_common_name t = None) ->
       cert_sans r = [v]
       /\ cert_covers_domain r = covers domain v)
    /\ (subject cert = None
        \/ (exists subj, subject cert = Some subj
                         /\ forall t, In t subj -> first_common_name t = None) ->
        cert_sans r = []
        /\ cert_covers_domain r = false
        /\ In (msg_not_covered domain) (cert_errors r)).
Proof.
  intros env domain r cert Hr Hc Hp Hnodns.
  rewrite cert_check_report in Hr. injection Hr as <-.
  destruct (cert_report_sans env domain cert Hc Hp) as [Es Ec].
  assert (Hd : match subjectAltName cert with
               | Some san => dns_names san
               | None => []
               end = []).
  { destruct Hnodns as [->|(san & -> & Hno)]; [reflexivity|].
    destruct (dns_names san) as [|v l] eqn:E; [reflexivity|].
    elim (Hno v). apply dns_names_In. rewrite E. now left. }
  assert (En : cert_names cert
               = match subject cert with
                 | Some subj => common_name_fallback subj []
                 | None => []
                 end).
  { unfold cert_names. rewrite Hd. reflexivity. }
  split.
  - intros before rdn after v Hsub Hv Hafter.
    rewrite Ec, Es, En, Hsub.
    rewrite (common_name_fallback_last before after rdn v [] Hv Hafter).
    simpl. now rewrite orb_false_r.
  - intros Hnone.
    assert (E0 : cert_names cert = []).
    { rewrite En. destruct Hnone as [->|(subj & -> & Hn)]; [reflexivity|].
      now apply common_name_fallback_none. }
    rewrite Es, Ec. rewrite E0. repeat apply conj; try reflexivity.
    unfold cert_report. rewrite Hc, E0. simpl.
    destruct (notAfter cert) as [s|]; simpl; [|auto].
    destruct (Hp s eq_refl) as [dt ->]. simpl.
    apply in_or_app. right. now left.
Qed.

(** A subject with two common names: the later one is reported. *)
Lemma cert_sans_fall_back_to_common_name_witness :
  exists r,
    cert_check env_cn_only "good.example" = Returns r
    /\ cert_sans r = ["good.example"]
    /\ cert_covers_domain r = true.
Proof.
  eexists. split; [vm_compute; reflexivity|].
  assert (Hp : forall s, notAfter cn_only_cert = Some s ->
                 exists dt, strptime env_cn_only s not_after_format
                            = Returns dt)
    by (intros s _; exists sample_expiry; reflexivity).
  assert (Hn : subjectAltName cn_only_cert = None
               \/ exists san, subjectAltName cn_only_cert = Some san
                              /\ forall v, ~ In ("DNS", v) san).
  { right. eexists. split; [reflexivity|]. intros v [E|[]]. discriminate. }
  destruct (proj1 (cert_sans_fall_back_to_common_name env_cn_only
                     "good.example" _ cn_only_cert eq_refl eq_refl Hp Hn)
              [[("countryName", "XX")]; [("commonName", "old.example")]]
              [("organizationName", "Example"); ("commonName", "good.example")]
              [] "good.example" eq_refl eq_refl)
    as [Hs Hcov].
  - intros t [].
  - split; [exact Hs | exact Hcov].
Defined.

(** X13: when the end date of a fetched certificate does not parse, the
    result keeps the raw [not_after] written before the failure and
    nothing else: no [days_left], no SANs, the domain not covered, [ok]
    false and the handler's error as the only one, whatever names the
    certificate carries. *)
Theorem cert_unparsable_end_date :
  forall env domain cert s e,
    getpeercert env domain = Returns cert ->
    notAfter cert = Some s ->
    strptime env s "%b %d %H:%M:%S %Y %Z" = Raises e ->
    cert_check env domain
    = Returns {| cert_ok := false;
                 cert_not_after := Some s;
                 cert_days_left := None;
                 cert_sans := [];
                 cert_covers_domain := false;
                 cert_errors := ["openssl/SSL failed: " ++ exn_str e];
                 cert_warnings := [] |}.
Proof.
  intros env domain cert s e Hc Hs Hd. rewrite cert_check_report.
  unfold cert_report. fold not_after_format in Hd. now rewrite Hc, Hs, Hd.
Qed.

(** The sample certificate in a world that cannot read its date. *)
Lemma cert_unparsable_end_date_witness :
  exists r,
    cert_check env_two_addresses "good.example" = Returns r
    /\ cert_not_after r = Some "Aug 13 15:04:05 2030 GMT"
    /\ cert_sans r = []
    /\ cert_errors r
       = ["openssl/SSL failed: time data does not match format"].
Proof.
  eexists. split.
  - apply (cert_unparsable_end_date env_two_addresses "good.example"
             sample_cert "Aug 13 15:04:05 2030 GMT"
             (OtherException "time data does not match format"));
      reflexivity.
  - repeat apply conj; reflexivity.
Defined.

(** X14: for a fetched certificate whose end date parses, the error
    "Certificate has expired." is recorded exactly when the end date lies
    before the current time, by however little, and [days_left] is
    negative exactly then; an end date equal to the current time is not
    expired. *)
Theorem cert_expired_iff_end_date_passed :
  forall env domain r cert s dt,
    cert_check env domain = Returns r ->
    getpeercert env domain = Returns cert ->
    notAfter cert = Some s ->
    strptime env s not_after_format = Returns dt ->
    (In "Certificate has expired." (cert_errors r) <-> (dt < utcnow env)%Z)
    /\ (exists days, cert_days_left r = Some days
                     /\ ((days < 0)%Z <-> (dt < utcnow env)%Z)).
Proof.
  intros env domain r cert s dt Hr Hc Hs Hd.
  rewrite cert_check_report in Hr. injection Hr as <-.
  rewrite (cert_report_parsed env domain cert s dt Hc Hs Hd). cbv zeta.
  cbn [cert_errors cert_days_left].
  pose proof (timedelta_days_negative_iff (dt - utcnow env)) as Hneg.
  split.
  - rewrite in_app_iff.
    destruct (Z.ltb_spec (timedelta_days (dt - utcnow env)) 0) as [Hlt|Hge].
    + split; [intros _; lia | intros _; left; now left].
    + split; [|lia]. intros [[]|Hin].
      destruct (existsb _ _); simpl in Hin; [tauto|].
      destruct Hin as [E|[]]. now elim (expired_is_not_uncovered domain).
  - eexists. split; [reflexivity|]. lia.
Qed.

(** One day after the end date. *)
Lemma cert_expired_iff_end_date_passed_witness :
  exists r,
    cert_check env_expired "good.example" = Returns r
    /\ In "Certificate has expired." (cert_errors r).
Proof.
  eexists. split; [vm_compute; reflexivity|].
  apply (proj1 (cert_expired_iff_end_date_passed env_expired "good.example" _
                  sample_cert "Aug 13 15:04:05 2030 GMT"
                  (sample_now - us_per_day)%Z
                  eq_refl eq_refl eq_refl eq_refl)).
  vm_compute. reflexivity.
Defined.

(** X15: [cert_check] answers [ok] exactly when the certificate was
    fetched, has an end date that parses and does not lie before the
    current time, and one of its names covers the domain. *)
Theorem cert_ok_true_iff :
  forall env domain r,
    cert_check env domain = Returns r ->
    (cert_ok r = true
     <-> exists cert s dt,
           getpeercert env domain = Returns cert
           /\ notAfter cert = Some s
           /\ strptime env s not_after_format = Returns dt
           /\ (utcnow env <= dt)%Z
           /\ exists san, In san (cert_names cert)
                          /\ covers domain san = true).
Proof.
  intros env domain r Hr. rewrite cert_check_report in Hr.
  injection Hr as <-. split.
  - unfold cert_report, cert_failed.
    destruct (getpeercert env domain) as [cert|e] eqn:Hc; [|discriminate].
    destruct (notAfter cert) as [s|] eqn:Hs; [|discriminate].
    destruct (strptime env s not_after_format) as [dt|e] eqn:Hp;
      [|discriminate].
    simpl. intros H. apply andb_true_iff in H. destruct H as [Hd Hcov].
    apply negb_true_iff, Z.ltb_ge in Hd.
    pose proof (timedelta_days_negative_iff (dt - utcnow env)) as Hn.
    exists cert, s, dt.
    split; [reflexivity|]. split; [exact Hs|]. split; [exact Hp|].
    split; [lia|]. now apply existsb_exists.
  - intros (cert & s & dt & Hc & Hs & Hd & Hfut & Hsan).
    rewrite (cert_report_parsed env domain cert s dt Hc Hs Hd). simpl.
    apply andb_true_iff. split.
    + apply negb_true_iff, Z.ltb_ge.
      pose proof (timedelta_days_negative_iff (dt - utcnow env)). lia.
    + now apply existsb_exists.
Qed.

(** The good world. *)
Lemma cert_ok_true_iff_witness :
  exists r, cert_check env_good "good.example" = Returns r /\ cert_ok r = true.
Proof.
  eexists. split; [vm_compute; reflexivity|].
  apply (cert_ok_true_iff env_good "good.example" _ eq_refl).
  exists sample_cert, "Aug 13 15:04:05 2030 GMT", sample_expiry.
  split; [reflexivity|]. split; [reflexivity|]. split; [reflexivity|].
  split; [vm_compute; discriminate|].
  exists "good.example". split; [simpl; auto | reflexivity].
Defined.

(** X16: in every result of [cert_check] the warnings are empty, there
    are at most two errors, each is one of the four texts of lines 94, 97,
    125 and 129, an expired and a missing end date are never reported
    together, and the handler's error is never accompanied by another. *)
Theorem cert_result_invariants :
  forall env domain r,
    cert_check env domain = Returns r ->
    cert_warnings r = []
    /\ (List.length (cert_errors r) <= 2)%nat
    /\ (forall e, In e (cert_errors r) ->
          e = "Certificate has expired."
          \/ e = "No certificate end date present."
          \/ e = "Certificate does NOT cover domain " ++ domain ++ "."
          \/ exists x, e = "openssl/SSL failed: " ++ exn_str x)
    /\ ~ (In "Certificate has expired." (cert_errors r)
          /\ In "No certificate end date present." (cert_errors r))
    /\ (forall x, In ("openssl/SSL failed: " ++ exn_str x) (cert_errors r) ->
          cert_errors r = ["openssl/SSL failed: " ++ exn_str x]).
Proof.
  intros env domain r Hr. rewrite cert_check_report in Hr.
  injection Hr as <-. unfold cert_report, cert_failed.
  fold msg_expired msg_no_end_date (msg_not_covered domain).
  destruct (getpeercert env domain) as [cert|e0]; simpl.
  2:{ repeat apply conj; auto.
      - intros e [<-|[]]. right; right; right. now exists e0.
      - intros [[E|[]] _]. discriminate E.
      - intros x [E|[]]. now rewrite E. }
  destruct (notAfter cert) as [s|]; simpl.
  2:{ destruct (existsb (covers domain) (cert_names cert)); simpl;
        repeat apply conj; auto.
      - intros e [<-|[]]; auto.
      - intros [[E|[]] _]. discriminate E.
      - intros x [E|[]]. discriminate E.
      - intros e [<-|[<-|[]]]; auto.
      - intros [[E|[E|[]]] _]; discriminate E.
      - intros x [E|[E|[]]]; discriminate E. }
  destruct (strptime env s not_after_format) as [dt|e0]; simpl.
  2:{ repeat apply conj; auto.
      - intros e [<-|[]]. right; right; right. now exists e0.
      - intros [[E|[]] _]. discriminate E.
      - intros x [E|[]]. now rewrite E. }
  destruct (timedelta_days (dt - utcnow env) <? 0)%Z;
    destruct (existsb (covers domain) (cert_names cert)); simpl;
    repeat apply conj; auto;
    try (intros e He; repeat destruct He as [<-|He]; auto; now destruct He);
    try (intros [_ He]; repeat destruct He as [E|He];
         try discriminate E; now destruct He);
    try (intros x He; repeat destruct He as [E|He];
         try discriminate E; now destruct He).
Qed.

(** A host that cannot be reached. *)
Lemma cert_result_invariants_witness :
  exists r,
    cert_check env_down "good.example" = Returns r
    /\ cert_errors r = ["openssl/SSL failed: timed out"].
Proof.
  eexists. split; [vm_compute; reflexivity|].
  destruct (cert_result_invariants env_down "good.example" _ eq_refl)
    as (_ & _ & _ & _ & Honly).
  apply (Honly (OtherException "timed out")). simpl. auto.
Defined.

(** ** More on the route *)

Lemma form_get_absent (form : list (string * string)) (key default : string) :
  key_absent form key -> form_get form key default = default.
Proof.
  unfold key_absent. induction form as [|[k v] form IH]; intros H; simpl.
  - reflexivity.
  - destruct (String.eqb_spec k key) as [E|_].
    + elim (H k v (or_introl eq_refl) E).
    + apply IH. intros k' v' Hin. apply (H k' v'). now right.
Qed.

Lemma index_post (env : Env) (form : list (string * string)) :
  index env "POST" form
  = let domain := PyStr.strip (form_get form "domain" "") in
    let expected_ip := PyStr.strip (form_get form "expected_ip" "") in
    let expected_cname := PyStr.strip (form_get form "expected_cname" "") in
    if negb (PyStr.truthy domain) then
      Returns (Some (DataError "Please enter a domain."))
    else
      obind (https_report env domain) (fun https_res =>
      Returns (Some (DataReport
        {| rep_domain := domain;
           rep_expected_ip := expected_ip;
           rep_expected_cname := expected_cname;
           rep_dns := dns_report env domain expected_ip expected_cname;
           rep_https := https_res;
           rep_cert := cert_report env domain;
           rep_ok_all :=
             dns_ok (dns_report env domain expected_ip expected_cname)
             && https_ok https_res && cert_ok (cert_report env domain) |}))).
Proof.
  unfold index. simpl String.eqb. cbv zeta.
  destruct (negb (PyStr.truthy _)); [reflexivity|].
  rewrite dns_checks_report, https_check_report, cert_check_report.
  reflexivity.
Qed.

(** X17: the route runs no checker without a domain: a request that is
    no POST gets no data, and a POST whose [domain] field is missing or
    holds white-space characters only gets "Please enter a domain.", in
    every world, also in one where a checker would raise. *)
Theorem index_without_domain :
  (forall env method form,
     method <> "POST" -> index env method form = Returns None)
  /\ (forall env form,
        key_absent form "domain"
        \/ all_space (form_get form "domain" "") ->
        index env "POST" form
        = Returns (Some (DataError "Please enter a domain."))).
Proof.
  split.
  - intros env method form Hne. unfold index.
    destruct (String.eqb_spec method "POST"); [contradiction | reflexivity].
  - intros env form H. rewrite index_post. cbv zeta.
    assert (E : PyStr.strip (form_get form "domain" "") = "").
    { destruct H as [Habs|Hsp].
      - now rewrite (form_get_absent form "domain" "" Habs).
      - now apply strip_all_space. }
    now rewrite E.
Qed.

(** A domain of a blank, two EM SPACE characters and an IDEOGRAPHIC SPACE,
    in a world whose HTTP client raises. *)
Lemma index_without_domain_witness :
  index env_http_leak "POST"
    [("expected_ip", "192.0.2.10");
     ("domain", PyStr.bytes [32; 226; 128; 131; 226; 128; 131; 227; 128; 128])]
  = Returns (Some (DataError "Please enter a domain.")).
Proof.
  apply (proj2 index_without_domain env_http_leak).
  right.
  exists [PyStr.bytes [32]; PyStr.bytes [226; 128; 131];
          PyStr.bytes [226; 128; 131]; PyStr.bytes [227; 128; 128]].
  split; [|reflexivity].
  repeat (apply Forall_cons; [apply white_space_member; reflexivity|]).
  apply Forall_nil.
Defined.

(** X18: every report comes from a POST and carries the three form values
    stripped on both sides: none of them begins or ends with a white-space
    character, and the domain is not empty. *)
Theorem index_report_inputs_stripped :
  forall env method form report,
    index env method form = Returns (Some (DataReport report)) ->
    method = "POST"
    /\ rep_domain report = PyStr.strip (form_get form "domain" "")
    /\ rep_expected_ip report = PyStr.strip (form_get form "expected_ip" "")
    /\ rep_expected_cname report
       = PyStr.strip (form_get form "expected_cname" "")
    /\ rep_domain report <> ""
    /\ forall w value,
         In w PyStr.white_space ->
         In value [rep_domain report; rep_expected_ip report;
                   rep_expected_cname report] ->
         PyStr.startswith value w = false /\ PyStr.endswith value w = false.
Proof.
  intros env method form report H.
  assert (Hm : method = "POST").
  { unfold index in H. destruct (String.eqb_spec method "POST");
      [assumption | discriminate]. }
  subst method. split; [reflexivity|].
  rewrite index_post in H. cbv zeta in H.
  destruct (PyStr.truthy (PyStr.strip (form_get form "domain" ""))) eqn:Et;
    simpl in H; [|discriminate].
  destruct (https_report env _) as [h|e]; simpl in H; [|discriminate].
  injection H as <-. cbn [rep_domain rep_expected_ip rep_expected_cname].
  apply truthy_true_iff in Et.
  split; [reflexivity|]. split; [reflexivity|]. split; [reflexivity|].
  split; [exact Et|].
  intros w value Hw [<-|[<-|[<-|[]]]]; now apply strip_shape.
Qed.

(** The good form, whose domain is written between blanks. *)
Lemma index_report_inputs_stripped_witness :
  exists report,
    index env_good "POST" good_form = Returns (Some (DataReport report))
    /\ rep_domain report = "good.example".
Proof.
  eexists. split; [vm_compute; reflexivity|].
  destruct (index_report_inputs_stripped env_good "POST" good_form _ eq_refl)
    as (_ & Hd & _).
  exact Hd.
Defined.

Lemma dns_report_ok_iff_no_errors (env : Env)
  (domain expected_ip expected_cname : string) :
  dns_ok (dns_report env domain expected_ip expected_cname) = true
  <-> dns_errors (dns_report env domain expected_ip expected_cname) = [].
Proof.
  unfold dns_report; simpl.
  destruct (negb (nonempty (a_records_found env domain))
            && negb (truthy_opt (cname_found env domain)));
    destruct (PyStr.truthy expected_ip
              && negb (contains (a_records_found env domain) expected_ip));
    destruct (PyStr.truthy expected_cname
              && negb (cname_agrees (cname_found env domain) expected_cname));
    simpl; split; intros H; try reflexivity; discriminate.
Qed.

Lemma cert_report_ok_iff_no_errors (env : Env) (domain : string) :
  cert_ok (cert_report env domain) = true
  <-> cert_errors (cert_report env domain) = [].
Proof.
  unfold cert_report, cert_failed.
  destruct (getpeercert env domain) as [cert|e]; simpl;
    [|split; discriminate].
  destruct (notAfter cert) as [s|]; simpl; [|split; discriminate].
  destruct (strptime env s not_after_format) as [dt|e]; simpl;
    [|split; discriminate].
  destruct (timedelta_days (dt - utcnow env) <? 0)%Z;
    destruct (existsb (covers domain) (cert_names cert)); simpl;
    split; intros H; try reflexivity; discriminate.
Qed.

Lemma https_report_ok_iff_no_errors (env : Env) (domain : string)
  (h : HttpsResult) :
  https_report env domain = Returns h ->
  (https_ok h = true <-> https_errors h = []).
Proof.
  unfold https_report.
  destruct (requests_head env (https_url domain)) as [st|[m|m]];
    [| |discriminate]; intros H; injection H as <-; simpl.
  - destruct (400 <=? st)%Z; simpl; split; intros H;
      try reflexivity; discriminate.
  - split; discriminate.
Qed.

(** X19: the overall verdict of a report is true exactly when none of its
    three results carries an error. *)
Theorem index_ok_all_iff_no_errors :
  forall env method form report,
    index env method form = Returns (Some (DataReport report)) ->
    (rep_ok_all report = true
     <-> dns_errors (rep_dns report) = []
         /\ https_errors (rep_https report) = []
         /\ cert_errors (rep_cert report) = []).
Proof.
  intros env method form report H.
  assert (Hm : method = "POST").
  { unfold index in H. destruct (String.eqb_spec method "POST");
      [assumption | discriminate]. }
  subst method. rewrite index_post in H. cbv zeta in H.
  destruct (negb _); [discriminate|].
  destruct (https_report env _) as [h|e] eqn:Eh; unfold obind in H;
    [|discriminate].
  injection H as <-. cbn [rep_ok_all rep_dns rep_https rep_cert].
  rewrite <- dns_report_ok.
  rewrite !andb_true_iff, dns_report_ok_iff_no_errors,
    cert_report_ok_iff_no_errors,
    (https_report_ok_iff_no_errors env _ h Eh).
  tauto.
Qed.

(** The good world: no error anywhere. *)
Lemma index_ok_all_iff_no_errors_witness :
  exists report,
    index env_good "POST" good_form = Returns (Some (DataReport report))
    /\ rep_ok_all report = true.
Proof.
  eexists. split; [vm_compute; reflexivity|].
  apply (index_ok_all_iff_no_errors env_good "POST" good_form _ eq_refl).
  repeat apply conj; reflexivity.
Defined.



(** ** [ok] only ever falls, in the other two checkers as well *)

(** X21: no step of [https_check] or of [cert_check], handlers included,
    turns a false [ok] back to true, and both start from a true [ok]. *)
Theorem https_and_cert_ok_only_fall :
  forall env domain,
    https_ok https_init = true
    /\ cert_ok cert_init = true
    /\ keeps_failed https_ok
         (try_except_request (https_body env domain) https_handler)
    /\ keeps_failed cert_ok (try_except (cert_body env domain) cert_handler)
    /\ (forall cert, keeps_failed cert_ok (cert_expiry env cert))
    /\ keeps_failed cert_ok (cert_coverage domain).
Proof.
  intros env domain.
  assert (Hexp : forall cert, keeps_failed cert_ok (cert_expiry env cert)).
  { intros cert. unfold cert_expiry. destruct (notAfter cert); keeps. }
  assert (Hcov : keeps_failed cert_ok (cert_coverage domain)).
  { unfold cert_coverage. keeps. }
  repeat apply conj; try reflexivity; try assumption.
  - intros s Hs. unfold try_except_request, https_body, https_handler.
    unfold bind, call, modify, when, ret.
    destruct (requests_head env (https_url domain)) as [st|[m|m]]; simpl;
      [destruct (400 <=? st)%Z; simpl|..]; auto.
  - apply keeps_failed_try_except.
    + unfold cert_body, cert_sans_step.
      apply keeps_failed_bind; [apply keeps_failed_call|]. intros cert.
      apply keeps_failed_bind; [apply Hexp|]. intros _.
      apply keeps_failed_bind; [|intros _; exact Hcov]. keeps.
    + intros e. unfold cert_handler. keeps.
Qed.
